(** * Credit decision engine: affordability rule and display reconciliation

    A shallow embedding of [app/logic.py] (installment-period snapping,
    debt-service ratio, three-tier decision, suggestions) and of the
    read-time reconciliation of [app/main.py] ([_policy_decision_from_dsr]
    and the [final_display] expression of [customer_applications] and
    [customer_detail]).

    Conventions of the embedding.
    - The figures of an evaluation ([total_cost], [monthly_installment],
      [dsr]) and the two threshold ladders are embedded twice.  Module
      [F64] computes them as the code does, in binary64 ([PrimFloat.float]),
      with rounding, infinities and NaN; the properties of the figures and
      of the thresholds are stated there.  The embedding outside [F64]
      reads the floats as exact rationals ([Q]); it carries the properties
      of the control flow (which branch appends which suggestion, which
      operand of an [or] is displayed, what is counted), which depend on
      the outcome of the comparisons and not on the rounding of the
      figures.
    - A Python call that may raise returns [option]; [None] is the raised
      exception ([IndexError], [ValueError], [ZeroDivisionError]).
    - Strings are ASCII text: a character is a code point below 128.
      [strip], [title] and [int] treat other code points by the Unicode
      tables, which are not embedded; a property that depends on the
      characters of a text says that the text is ASCII.
    - The dict [installment_options] is a [gmap string (list Z)]. *)

From Stdlib Require Import ZArith QArith Lqa Lia Ascii Floats Uint63.
From stdpp Require Import base option list sorting strings gmap pretty.

Local Open Scope Z_scope.
Local Set Warnings "-inexact-float".

(** ** Python values and built-ins used by the source *)

Module Py.

(** The values the field [installment_period] of a row holds: absent,
    an integer (the API schema), a float (a CSV column that [pandas] read
    as floats, a blank cell being NaN), or text. *)
Inductive value : Type :=
  | VNone
  | VInt (n : Z)
  | VFloat (f : float)
  | VStr (s : string).

(** Truth value of an object: [None], [0], [0.0], [-0.0] and [""] are
    false; NaN is true. *)
Definition truthy (v : value) : bool :=
  match v with
  | VNone => false
  | VInt n => negb (n =? 0)
  | VFloat f => negb (PrimFloat.eqb f 0%float)
  | VStr s => negb (String.eqb s "")
  end.

(** [float(n)] for an integer below [2^63] in magnitude; exact below
    [2^53]. *)
Definition float_of_int (n : Z) : float :=
  if n <? 0 then PrimFloat.opp (PrimFloat.of_uint63 (Uint63.of_Z (- n)))
  else PrimFloat.of_uint63 (Uint63.of_Z n).

(** [int(f)] for a float: the fraction is dropped (rounding toward zero);
    [OverflowError] on an infinity and [ValueError] on NaN. *)
Definition int_of_float (f : float) : option Z :=
  match Prim2SF f with
  | S754_zero _ => Some 0
  | S754_finite s m e =>
      let n := Z.shiftl (Z.pos m) e in Some (if s then - n else n)
  | S754_infinity _ | S754_nan => None
  end.

(** [x / y] on floats; [ZeroDivisionError] when [y] is [0.0] or [-0.0]. *)
Definition fdiv (x y : float) : option float :=
  if PrimFloat.eqb y 0%float then None else Some (x / y)%float.

(** [s.isascii()] *)
Definition is_ascii (s : string) : bool :=
  forallb (λ c, (nat_of_ascii c <? 128)%nat) (String.list_ascii_of_string s).

(** Truth value of an [Optional[str]] attribute. *)
Definition str_truthy (o : option string) : bool :=
  match o with
  | Some s => negb (String.eqb s "")
  | None => false
  end.

(** [a or b] on [Optional[str]] operands. *)
Definition or_ (a b : option string) : option string :=
  if str_truthy a then a else b.

(** [str.isspace] on ASCII: TAB..CR, FS..US and SPACE. *)
Definition is_space (c : ascii) : bool :=
  let n := nat_of_ascii c in
  ((9 <=? n) && (n <=? 13) || (28 <=? n) && (n <=? 32))%nat.

Definition is_upper (c : ascii) : bool :=
  let n := nat_of_ascii c in ((65 <=? n) && (n <=? 90))%nat.

Definition is_lower (c : ascii) : bool :=
  let n := nat_of_ascii c in ((97 <=? n) && (n <=? 122))%nat.

Definition to_upper (c : ascii) : ascii :=
  if is_lower c then ascii_of_nat (nat_of_ascii c - 32) else c.

Definition to_lower (c : ascii) : ascii :=
  if is_upper c then ascii_of_nat (nat_of_ascii c + 32) else c.

Fixpoint lstrip (s : string) : string :=
  match s with
  | String c s' => if is_space c then lstrip s' else s
  | EmptyString => EmptyString
  end.

(** [s.strip()] *)
Definition strip (s : string) : string :=
  String.rev (lstrip (String.rev (lstrip s))).

(** [s.title()]: a letter that follows a letter is lowered, any other
    letter is raised; a character that is not a letter ends the word. *)
Fixpoint title_go (previous_is_cased : bool) (s : string) : string :=
  match s with
  | EmptyString => EmptyString
  | String c s' =>
      if is_lower c || is_upper c then
        String (if previous_is_cased then to_lower c else to_upper c)
               (title_go true s')
      else String c (title_go false s')
  end.

Definition title (s : string) : string := title_go false s.

Definition digit_of (c : ascii) : option Z :=
  let n := nat_of_ascii c in
  if ((48 <=? n) && (n <=? 57))%nat then Some (Z.of_nat (n - 48)) else None.

(** Digits of a decimal literal; one underscore may separate two digits. *)
Fixpoint digits_go (acc : Z) (after_digit : bool) (s : string) : option Z :=
  match s with
  | EmptyString => if after_digit then Some acc else None
  | String c s' =>
      if Ascii.eqb c "_" then
        if after_digit then digits_go acc false s' else None
      else
        d ← digit_of c; digits_go (10 * acc + d) true s'
  end.

(** The whitespace that [int] skips around a literal: TAB..CR and SPACE
    (FS..US, which [strip] removes, are not skipped). *)
Definition is_int_space (c : ascii) : bool :=
  let n := nat_of_ascii c in
  ((9 <=? n) && (n <=? 13) || (n =? 32))%nat.

Fixpoint int_lstrip (s : string) : string :=
  match s with
  | String c s' => if is_int_space c then int_lstrip s' else s
  | EmptyString => EmptyString
  end.

Definition int_strip (s : string) : string :=
  String.rev (int_lstrip (String.rev (int_lstrip s))).

(** The number of digits of a literal. *)
Fixpoint count_digits (s : string) : nat :=
  match s with
  | EmptyString => 0
  | String c s' =>
      match digit_of c with
      | Some _ => S (count_digits s')
      | None => count_digits s'
      end
  end.

(** [int(s)] for text: surrounding whitespace, an optional sign, digits;
    [ValueError] on anything else and on more than 4300 digits. *)
Definition int_of_str (s : string) : option Z :=
  let literal := int_strip s in
  if 4300 <? Z.of_nat (count_digits literal) then None
  else
    match literal with
    | String "+" r => digits_go 0 false r
    | String "-" r => Z.opp <$> digits_go 0 false r
    | r => digits_go 0 false r
    end.

(** [min(l, key=key)]: the first element whose key is least; [ValueError]
    on an empty list. *)
Fixpoint min_go {A} (key : A → Z) (best : A) (l : list A) : A :=
  match l with
  | [] => best
  | x :: l' => min_go key (if key x <? key best then x else best) l'
  end.

Definition min_by {A} (key : A → Z) (l : list A) : option A :=
  match l with
  | [] => None
  | x :: l' => Some (min_go key x l')
  end.

(** [", ".join]-style joining of a list of strings with a separator. *)
Fixpoint join (sep : string) (l : list string) : string :=
  match l with
  | [] => ""
  | [x] => x
  | x :: l' => x +:+ sep +:+ join sep l'
  end.

(** Comparisons and true division of floats read as rationals. *)
Definition fle (x y : Q) : bool := Qle_bool x y.

Definition flt (x y : Q) : bool :=
  match (x ?= y)%Q with Lt => true | _ => false end.

Definition truediv (x y : Q) : option Q :=
  if Qeq_bool y 0 then None else Some (x / y)%Q.

(** [max(l)]; [ValueError] on an empty list. *)
Definition max_of (l : list Z) : option Z :=
  match l with
  | [] => None
  | x :: l' => Some (fold_left Z.max l' x)
  end.

End Py.

(** ** app/logic.py *)

(** Allowed installment periods by asset type. *)
Definition installment_options : gmap string (list Z) :=
  {[ "Car" := [36; 48; 60; 72; 84];
     "House" := [120; 180; 240; 300];
     "Equipment" := [12; 24; 36; 48; 60] ]}.

Definition _normalize_asset_type (value : option string) : string :=
  match value with
  | None => "Car"
  | Some s => Py.title (Py.strip s)
  end.

Definition _to_int_or_none (value : Py.value) : option Z :=
  match value with
  | Py.VNone => None
  | Py.VInt n => Some n
  | Py.VFloat f => Py.int_of_float f
  | Py.VStr s => Py.int_of_str s
  end.

Definition _pick_installment_period
    (asset_type : string) (requested_months : Py.value) : option Z :=
  let allowed := default [36] (installment_options !! asset_type) in
  if negb (Py.truthy requested_months) then allowed !! 0%nat
  else
    match _to_int_or_none requested_months with
    | None => allowed !! 0%nat
    | Some requested =>
        if requested =? 0 then allowed !! 0%nat
        else if negb (bool_decide (requested ∈ allowed)) then
          Py.min_by (λ x, Z.abs (x - requested)) allowed
        else Some requested
    end.


Module Row.
(** The mapping handed to [process_customer_row]. *)
Record t : Type := mk {
  customer_id : string;
  name : string;
  gender : string;
  age : Z;
  job_type : string;
  income : Q;
  expenses : Q;
  credit_history : string;
  existing_loans : Q;
  financing_type : string;
  asset_type : option string;
  asset_value : Q;
  down_payment : Q;
  installment_period : Py.value
}.
End Row.

Module Processed.
(** The dict returned by [process_customer_row].  The key [explanation]
    is formatted float text and is not part of the model. *)
Record t : Type := mk {
  customer_id : string;
  name : string;
  gender : string;
  age : Z;
  job_type : string;
  income : Q;
  expenses : Q;
  credit_history : string;
  existing_loans : Q;
  financing_type : string;
  asset_type : string;
  asset_value : Q;
  down_payment : Q;
  installment_period : Z;
  monthly_installment : Q;
  total_cost : Q;
  dsr : Q;
  decision : string;
  suggestions : string
}.
End Processed.

Definition newline : string := String (ascii_of_nat 10) EmptyString.

Definition extend_to (m : Z) : string :=
  "Consider extending the installment period to " +:+ pretty m +:+ " months.".

Definition process_customer_row (row : Row.t) : option Processed.t :=
  let income := Row.income row in
  let expenses := Row.expenses row in
  let existing_loans := Row.existing_loans row in
  let asset_value := Row.asset_value row in
  let down_payment := Row.down_payment row in
  let asset_type_norm := _normalize_asset_type (Row.asset_type row) in
  let requested_months := Row.installment_period row in
  months ← _pick_installment_period asset_type_norm requested_months;
  let profit_rate := 0.10%Q in
  let loan_amount := (asset_value - down_payment)%Q in
  let total_cost := (loan_amount * (1 + profit_rate * (inject_Z months / 12)))%Q in
  monthly_installment ← Py.truediv total_cost (inject_Z months);
  let dsr :=
    if Py.flt 0 income then ((existing_loans + monthly_installment) / income)%Q
    else 1.0%Q in
  '(decision, suggestions) ←
    (if Py.fle dsr 0.45 then Some ("Accepted", [])
     else if Py.fle dsr 0.60 then
       let suggestions :=
         ["Consider increasing your down payment to reduce the monthly installment."] in
       let suggestions :=
         if Py.flt 0 existing_loans then
           suggestions ++ ["Pay off some existing loans to lower your total obligations."]
         else suggestions in
       let suggestions :=
         if Py.flt (0.5 * income) expenses then
           suggestions ++ ["Try to reduce your monthly expenses."]
         else suggestions in
       let allowed := default [months] (installment_options !! asset_type_norm) in
       let longer_terms := filter (λ m, months < m) allowed in
       let suggestions :=
         match longer_terms with
         | m :: _ => suggestions ++ [extend_to m]
         | [] => suggestions
         end in
       Some ("Review", suggestions)
     else
       let suggestions := [] in
       let suggestions :=
         if Py.flt 0 existing_loans then
           suggestions ++ ["Pay off existing loans to reduce your DSR."]
         else suggestions in
       let suggestions :=
         if Py.flt income ((existing_loans + monthly_installment) / 0.58) then
           suggestions ++ ["Increase your net monthly income."]
         else suggestions in
       let suggestions :=
         suggestions ++ ["Increase your down payment to reduce the financed amount."] in
       longest ← Py.max_of (default [months] (installment_options !! asset_type_norm));
       let suggestions :=
         if months <? longest then suggestions ++ [extend_to longest]
         else suggestions in
       Some ("Rejected", suggestions));
  Some {|
    Processed.customer_id := Row.customer_id row;
    Processed.name := Row.name row;
    Processed.gender := Row.gender row;
    Processed.age := Row.age row;
    Processed.job_type := Row.job_type row;
    Processed.income := income;
    Processed.expenses := expenses;
    Processed.credit_history := Row.credit_history row;
    Processed.existing_loans := existing_loans;
    Processed.financing_type := Row.financing_type row;
    Processed.asset_type := asset_type_norm;
    Processed.asset_value := asset_value;
    Processed.down_payment := down_payment;
    Processed.installment_period := months;
    Processed.monthly_installment := monthly_installment;
    Processed.total_cost := total_cost;
    Processed.dsr := dsr;
    Processed.decision := decision;
    Processed.suggestions := Py.join newline suggestions
  |}.

(** ** app/main.py *)

Module Customer.
(** The columns of [models.Customer] read when a decision is displayed. *)
Record t : Type := mk {
  dsr : option Q;
  decision : option string;
  ml_final_decision : option string;
  manual_decision : option string
}.
End Customer.

Definition _policy_decision_from_dsr (dsr : Q) : string :=
  if Py.flt 0.60 dsr then "Rejected"
  else if Py.fle dsr 0.45 then "Accepted"
  else "Review".

(** [float(c.dsr or 0.0)]: an absent or zero [dsr] reads as [0.0]. *)
Definition dsr_or_zero (dsr : option Q) : Q :=
  match dsr with
  | Some q => if Qeq_bool q 0 then 0.0%Q else q
  | None => 0.0%Q
  end.

(** [final_display], as computed for each row of [customer_applications]
    and in [customer_detail]. *)
Definition final_display (c : Customer.t) : option string :=
  let policy_final := _policy_decision_from_dsr (dsr_or_zero (Customer.dsr c)) in
  Py.or_ (Customer.manual_decision c)
    (Py.or_ (Some policy_final)
       (Py.or_ (Customer.ml_final_decision c) (Customer.decision c))).


(** * Definitions used to state the properties *)

(** A list of periods as the table holds them: not empty, positive and
    strictly ascending. *)
Definition periods_ok (l : list Z) : Prop :=
  l ≠ [] ∧ Forall (λ m, 0 < m) l ∧ StronglySorted Z.lt l.

(** The local [total_cost] of [process_customer_row], for a chosen period. *)
Definition total_cost_of (row : Row.t) (months : Z) : Q :=
  ((Row.asset_value row - Row.down_payment row)
   * (1 + 0.10 * (inject_Z months / 12)))%Q.

(** The local [monthly_installment], where the division succeeds. *)
Definition monthly_installment_of (row : Row.t) (months : Z) : Q :=
  (total_cost_of row months / inject_Z months)%Q.

(** The local [dsr]. *)
Definition dsr_of (row : Row.t) (months : Z) : Q :=
  if Py.flt 0 (Row.income row) then
    ((Row.existing_loans row + monthly_installment_of row months)
     / Row.income row)%Q
  else 1.0%Q.

(** The returned dict, given the period and the outcome of the branch. *)
Definition processed_of (row : Row.t) (months : Z)
    (decision : string) (suggestions : list string) : Processed.t := {|
  Processed.customer_id := Row.customer_id row;
  Processed.name := Row.name row;
  Processed.gender := Row.gender row;
  Processed.age := Row.age row;
  Processed.job_type := Row.job_type row;
  Processed.income := Row.income row;
  Processed.expenses := Row.expenses row;
  Processed.credit_history := Row.credit_history row;
  Processed.existing_loans := Row.existing_loans row;
  Processed.financing_type := Row.financing_type row;
  Processed.asset_type := _normalize_asset_type (Row.asset_type row);
  Processed.asset_value := Row.asset_value row;
  Processed.down_payment := Row.down_payment row;
  Processed.installment_period := months;
  Processed.monthly_installment := monthly_installment_of row months;
  Processed.total_cost := total_cost_of row months;
  Processed.dsr := dsr_of row months;
  Processed.decision := decision;
  Processed.suggestions := Py.join newline suggestions
|}.

(** The list built by the [elif dsr <= 0.60] branch, append by append. *)
Definition review_suggestions (row : Row.t) (months : Z) : list string :=
  ["Consider increasing your down payment to reduce the monthly installment."]
  ++ (if Py.flt 0 (Row.existing_loans row)
      then ["Pay off some existing loans to lower your total obligations."]
      else [])
  ++ (if Py.flt (0.5 * Row.income row) (Row.expenses row)
      then ["Try to reduce your monthly expenses."] else [])
  ++ match filter (λ m, months < m)
             (default [months]
                (installment_options !! _normalize_asset_type (Row.asset_type row)))
     with
     | m :: _ => [extend_to m]
     | [] => []
     end.

(** The list built by the [else] branch, given [longest]. *)
Definition rejected_suggestions (row : Row.t) (months longest : Z) : list string :=
  (if Py.flt 0 (Row.existing_loans row)
   then ["Pay off existing loans to reduce your DSR."] else [])
  ++ (if Py.flt (Row.income row)
           ((Row.existing_loans row + monthly_installment_of row months) / 0.58)
      then ["Increase your net monthly income."] else [])
  ++ ["Increase your down payment to reduce the financed amount."]
  ++ (if months <? longest then [extend_to longest] else []).

(** The first end-to-end example: income 5000, asset 50000, 60 months. *)
Definition row_earning : Row.t := {|
  Row.customer_id := "C-1"; Row.name := "B"; Row.gender := "M"; Row.age := 35;
  Row.job_type := "Engineer"; Row.income := 5000; Row.expenses := 1000;
  Row.credit_history := "Good"; Row.existing_loans := 0;
  Row.financing_type := "Murabaha"; Row.asset_type := Some "car";
  Row.asset_value := 50000; Row.down_payment := 10000;
  Row.installment_period := Py.VInt 60
|}.

(** The second end-to-end example: as the first, with 2000 of existing
    loans; its [dsr] is 0.60. *)
Definition row_review : Row.t := {|
  Row.customer_id := "C-2"; Row.name := "B"; Row.gender := "M"; Row.age := 35;
  Row.job_type := "Engineer"; Row.income := 5000; Row.expenses := 1000;
  Row.credit_history := "Good"; Row.existing_loans := 2000;
  Row.financing_type := "Murabaha"; Row.asset_type := Some "car";
  Row.asset_value := 50000; Row.down_payment := 10000;
  Row.installment_period := Py.VInt 60
|}.


(** The precedence as the specification words it: a non-empty manual
    decision; else the policy decision of the persisted [dsr]; else, the
    [dsr] being absent, the [ml_final_decision]; else the stored rule
    decision. *)
Definition spec_final_display (c : Customer.t) : option string :=
  if Py.str_truthy (Customer.manual_decision c) then Customer.manual_decision c
  else
    match Customer.dsr c with
    | Some dsr => Some (_policy_decision_from_dsr dsr)
    | None =>
        if Py.str_truthy (Customer.ml_final_decision c)
        then Customer.ml_final_decision c
        else Customer.decision c
    end.

(** A record without [dsr] whose stored decisions both say "Rejected". *)
Definition record_without_dsr : Customer.t := {|
  Customer.dsr := None;
  Customer.decision := Some "Rejected";
  Customer.ml_final_decision := Some "Rejected";
  Customer.manual_decision := None
|}.

(** A row for an asset type the table does not list, asking for 60 months. *)
Definition row_boat : Row.t := {|
  Row.customer_id := "C-4"; Row.name := "B"; Row.gender := "M"; Row.age := 35;
  Row.job_type := "Engineer"; Row.income := 5000; Row.expenses := 1000;
  Row.credit_history := "Good"; Row.existing_loans := 0;
  Row.financing_type := "Ijarah"; Row.asset_type := Some " boat";
  Row.asset_value := 50000; Row.down_payment := 10000;
  Row.installment_period := Py.VInt 60
|}.

(** * Further code of app/main.py *)

(** [max(x, y)] on floats: the first argument unless the second is greater. *)
Definition fmax (x y : Q) : Q := if Py.flt x y then y else x.

Definition _band_from_confidence (conf : Q) : string :=
  if Py.fle 0.70 conf then "High"
  else if Py.fle 0.40 conf then "Medium"
  else "Low".

Module Scored.
(** One entry of the list returned by [_score_h2o_vectorized], without
    the [shap] map of the model. *)
Record t : Type := mk {
  p_accept : Q;
  label : string;
  confidence : Q;
  confidence_band : string
}.
End Scored.

(** The scoring of one predicted row, as [_score_h2o_vectorized] and
    [_predict_h2o_from_payload] both write it.  [p_col] is the value of
    the probability column when the frame has one; [predict] is the
    value of the column [predict] when the row has one. *)
Definition score_prediction (p_col : option Q) (predict : option string)
    : Scored.t :=
  let p_accept :=
    match p_col with
    | Some p => p
    | None =>
        let pred_label := default "Rejected" predict in
        if String.eqb pred_label "Accepted" then 0.51%Q else 0.49%Q
    end in
  let label := if Py.fle 0.5 p_accept then "Accepted" else "Rejected" in
  let confidence := fmax p_accept (1.0 - p_accept)%Q in
  let band := _band_from_confidence confidence in
  {| Scored.p_accept := p_accept; Scored.label := label;
     Scored.confidence := confidence; Scored.confidence_band := band |}.

(** [len([x for x in l if f(x)])] *)
Definition count_if {A} (f : A → bool) (l : list A) : nat :=
  length (List.filter f l).

(** [collections.Counter(l)], as a dict. *)
Definition Counter (l : list string) : gmap string nat :=
  fold_left (λ counts k, <[k := S (default 0%nat (counts !! k))]> counts) l ∅.

(** [[c.dsr for c in customers if c.dsr is not None]] *)
Definition present_dsrs (customers : list Customer.t) : list Q :=
  omap Customer.dsr customers.

(** One turn of the loop of [analytics_overview] over [dsrs]. *)
Definition dsr_histogram_step (bins : gmap string nat) (v : Q)
    : gmap string nat :=
  if Py.flt v 0.45 then alter S "<0.45" bins
  else if Py.fle v 0.60 then alter S "0.45-0.60" bins
  else alter S ">0.60" bins.

(** The value counted for a record by [analytics_overview]:
    [c.manual_decision or c.ml_final_decision or c.decision]. *)
Definition analytics_decision (c : Customer.t) : option string :=
  Py.or_ (Customer.manual_decision c)
    (Py.or_ (Customer.ml_final_decision c) (Customer.decision c)).

Module Analytics.
(** The keys of the dict returned by [analytics_overview] that are
    computed from decisions and [dsr]; the rounded average and the
    distributions by gender and financing type are not part of the model. *)
Record t : Type := mk {
  total_customers : nat;
  decisions_breakdown : gmap string nat;
  dsr_histogram : gmap string nat
}.
End Analytics.

Definition analytics_overview (customers : list Customer.t) : Analytics.t :=
  match customers with
  | [] =>
      {| Analytics.total_customers := 0;
         Analytics.decisions_breakdown := ∅;
         Analytics.dsr_histogram := ∅ |}
  | _ =>
      let decisions :=
        omap (λ c, if Py.str_truthy (analytics_decision c)
                   then analytics_decision c else None) customers in
      let dsrs := present_dsrs customers in
      let bins : gmap string nat :=
        {[ "<0.45" := 0%nat; "0.45-0.60" := 0%nat; ">0.60" := 0%nat ]} in
      let bins := fold_left dsr_histogram_step dsrs bins in
      {| Analytics.total_customers := length customers;
         Analytics.decisions_breakdown := Counter decisions;
         Analytics.dsr_histogram := bins |}
  end.

Module Statistics.
(** The counts of the dict returned by [get_decision_statistics]; the
    rounded percentages and the rounded average are not part of the
    model. *)
Record t : Type := mk {
  total_customers : nat;
  processed_customers : nat;
  accepted : nat;
  review : nat;
  rejected : nat;
  high_risk_customers : nat
}.

Inductive response : Type :=
  | NoCustomers
  | NoDecisions (total_customers : nat)
  | Report (statistics : t).
End Statistics.

Definition get_decision_statistics (customers : list Customer.t)
    : Statistics.response :=
  match customers with
  | [] => Statistics.NoCustomers
  | _ =>
      let decisions :=
        omap (λ c, if Py.str_truthy (Customer.decision c)
                   then Customer.decision c else None) customers in
      let dsrs := present_dsrs customers in
      match decisions with
      | [] => Statistics.NoDecisions (length customers)
      | _ =>
          let high_risk_count :=
            match dsrs with
            | [] => 0%nat
            | _ => count_if (λ d, Py.flt 0.60 d) dsrs
            end in
          Statistics.Report {|
            Statistics.total_customers := length customers;
            Statistics.processed_customers := length decisions;
            Statistics.accepted := count_if (String.eqb "Accepted") decisions;
            Statistics.review := count_if (String.eqb "Review") decisions;
            Statistics.rejected := count_if (String.eqb "Rejected") decisions;
            Statistics.high_risk_customers := high_risk_count
          |}
      end
  end.

(** The same row with another requested period. *)
Definition with_installment_period (row : Row.t) (v : Py.value) : Row.t := {|
  Row.customer_id := Row.customer_id row;
  Row.name := Row.name row;
  Row.gender := Row.gender row;
  Row.age := Row.age row;
  Row.job_type := Row.job_type row;
  Row.income := Row.income row;
  Row.expenses := Row.expenses row;
  Row.credit_history := Row.credit_history row;
  Row.existing_loans := Row.existing_loans row;
  Row.financing_type := Row.financing_type row;
  Row.asset_type := Row.asset_type row;
  Row.asset_value := Row.asset_value row;
  Row.down_payment := Row.down_payment row;
  Row.installment_period := v
|}.

(** [s.lower()] on ASCII. *)
Fixpoint lower (s : string) : string :=
  match s with
  | EmptyString => EmptyString
  | String c s' => String (Py.to_lower c) (lower s')
  end.

(** The properties of one character that the proofs about [title] and
    [strip] use, as one boolean test. *)
Definition case_facts (c : ascii) : bool :=
  let letter := Py.is_lower c || Py.is_upper c in
  let lo := Py.to_lower c in
  let up := Py.to_upper c in
  bool_decide ((Py.is_lower lo || Py.is_upper lo) = letter)
  && bool_decide ((Py.is_lower up || Py.is_upper up) = letter)
  && bool_decide (Py.to_lower lo = lo)
  && bool_decide (Py.to_upper up = up)
  && bool_decide (Py.to_lower up = lo)
  && bool_decide (Py.to_upper lo = up)
  && bool_decide (Py.is_space lo = Py.is_space c)
  && bool_decide (Py.is_space up = Py.is_space c)
  && (if letter then negb (Py.is_space c) else true)
  && (if letter then true else bool_decide (lo = c) && bool_decide (up = c)).

(** A string that neither starts nor ends with whitespace. *)
Definition no_space_ends (s : string) : Prop :=
  (∀ c, head (String.list_ascii_of_string s) = Some c → Py.is_space c = false)
  ∧ (∀ c, last (String.list_ascii_of_string s) = Some c → Py.is_space c = false).

Module CustomerColumns.
(** The input columns of [models.Customer], which
    [_db_customer_to_payload] reads. *)
Record t : Type := mk {
  customer_id : string;
  name : string;
  gender : string;
  age : Z;
  job_type : string;
  income : Q;
  expenses : Q;
  credit_history : string;
  existing_loans : Q;
  financing_type : string;
  asset_type : string;
  asset_value : Q;
  down_payment : Q;
  installment_period : option Z
}.
End CustomerColumns.

Definition _db_customer_to_payload (c : CustomerColumns.t) : Row.t := {|
  Row.customer_id := CustomerColumns.customer_id c;
  Row.name := CustomerColumns.name c;
  Row.gender := CustomerColumns.gender c;
  Row.age := CustomerColumns.age c;
  Row.job_type := CustomerColumns.job_type c;
  Row.income := CustomerColumns.income c;
  Row.expenses := CustomerColumns.expenses c;
  Row.credit_history := CustomerColumns.credit_history c;
  Row.existing_loans := CustomerColumns.existing_loans c;
  Row.financing_type := CustomerColumns.financing_type c;
  Row.asset_type := Some (CustomerColumns.asset_type c);
  Row.asset_value := CustomerColumns.asset_value c;
  Row.down_payment := CustomerColumns.down_payment c;
  Row.installment_period :=
    Py.VInt match CustomerColumns.installment_period c with
            | Some n => if n =? 0 then 36 else n
            | None => 36
            end
|}.

(** The input columns of the [models.Customer] built from the dict that
    [process_customer_row] returns. *)
Definition columns_of_processed (processed : Processed.t) : CustomerColumns.t := {|
  CustomerColumns.customer_id := Processed.customer_id processed;
  CustomerColumns.name := Processed.name processed;
  CustomerColumns.gender := Processed.gender processed;
  CustomerColumns.age := Processed.age processed;
  CustomerColumns.job_type := Processed.job_type processed;
  CustomerColumns.income := Processed.income processed;
  CustomerColumns.expenses := Processed.expenses processed;
  CustomerColumns.credit_history := Processed.credit_history processed;
  CustomerColumns.existing_loans := Processed.existing_loans processed;
  CustomerColumns.financing_type := Processed.financing_type processed;
  CustomerColumns.asset_type := Processed.asset_type processed;
  CustomerColumns.asset_value := Processed.asset_value processed;
  CustomerColumns.down_payment := Processed.down_payment processed;
  CustomerColumns.installment_period :=
    Some (Processed.installment_period processed)
|}.

(** What [score_batch] writes to the columns read at display time, for
    one record and the evaluation of its payload: the policy decision of
    the stored [dsr], or of the evaluated one where none is stored. *)
Definition score_batch_update (c : Customer.t) (processed : Processed.t)
    : Customer.t :=
  let dsr :=
    match Customer.dsr c with
    | Some d => d
    | None => Processed.dsr processed
    end in
  {| Customer.dsr := Customer.dsr c;
     Customer.decision := Customer.decision c;
     Customer.ml_final_decision := Some (_policy_decision_from_dsr dsr);
     Customer.manual_decision := Customer.manual_decision c |}.

(** What [import_csv] writes to the same columns when it scores the
    imported records. *)
Definition import_csv_update (c : Customer.t) : Customer.t :=
  {| Customer.dsr := Customer.dsr c;
     Customer.decision := Customer.decision c;
     Customer.ml_final_decision :=
       Some (_policy_decision_from_dsr (dsr_or_zero (Customer.dsr c)));
     Customer.manual_decision := Customer.manual_decision c |}.

(** The condition that [customer_applications] adds to its query for a
    non-empty [decision] parameter; a comparison with a null column does
    not hold. *)
Definition matches_decision_filter (decision : string) (c : Customer.t) : bool :=
  bool_decide (Customer.manual_decision c = Some decision)
  || bool_decide (Customer.manual_decision c = None)
     && bool_decide (Customer.ml_final_decision c = Some decision)
  || bool_decide (Customer.manual_decision c = None)
     && bool_decide (Customer.ml_final_decision c = None)
     && bool_decide (Customer.decision c = Some decision).

(** [raise HTTPException(status_code, detail)] *)
Inductive http_exception : Type :=
  | HTTPException (status_code : Z) (detail : string).

(** [set_manual_decision], on the columns read at display time; [c] is
    the record found for the id, if any.  The note is stored in a column
    outside [Customer.t]. *)
Definition set_manual_decision (c : option Customer.t) (decision : string)
    : http_exception + Customer.t :=
  match c with
  | None => inl (HTTPException 404 "Customer not found")
  | Some c =>
      if negb (bool_decide (decision ∈ ["Accepted"; "Review"; "Rejected"]))
      then inl (HTTPException 400 "decision must be Accepted|Review|Rejected")
      else inr {| Customer.dsr := Customer.dsr c;
                  Customer.decision := Customer.decision c;
                  Customer.ml_final_decision := Customer.ml_final_decision c;
                  Customer.manual_decision := Some decision |}
  end.

(** * The figures and the thresholds in binary64 *)

Module F64.

Module Row.
(** The mapping handed to [process_customer_row]; the five amounts are
    the floats that [float(row[...])] returns. *)
Record t : Type := mk {
  customer_id : string;
  name : string;
  gender : string;
  age : Z;
  job_type : string;
  income : float;
  expenses : float;
  credit_history : string;
  existing_loans : float;
  financing_type : string;
  asset_type : option string;
  asset_value : float;
  down_payment : float;
  installment_period : Py.value
}.
End Row.

Module Processed.
(** The dict returned by [process_customer_row].  The key [explanation]
    is formatted float text and is not part of the model. *)
Record t : Type := mk {
  customer_id : string;
  name : string;
  gender : string;
  age : Z;
  job_type : string;
  income : float;
  expenses : float;
  credit_history : string;
  existing_loans : float;
  financing_type : string;
  asset_type : string;
  asset_value : float;
  down_payment : float;
  installment_period : Z;
  monthly_installment : float;
  total_cost : float;
  dsr : float;
  decision : string;
  suggestions : string
}.
End Processed.

(** [process_customer_row] of [app/logic.py].  [months / 12] divides two
    integers: the quotient is rounded once, which is the quotient of the
    two floats when both integers are below [2^53]. *)
Definition process_customer_row (row : Row.t) : option Processed.t :=
  let income := Row.income row in
  let expenses := Row.expenses row in
  let existing_loans := Row.existing_loans row in
  let asset_value := Row.asset_value row in
  let down_payment := Row.down_payment row in
  let asset_type_norm := _normalize_asset_type (Row.asset_type row) in
  let requested_months := Row.installment_period row in
  months ← _pick_installment_period asset_type_norm requested_months;
  let profit_rate := 0.10%float in
  let loan_amount := (asset_value - down_payment)%float in
  let total_cost :=
    (loan_amount * (1 + profit_rate * (Py.float_of_int months / 12)))%float in
  monthly_installment ← Py.fdiv total_cost (Py.float_of_int months);
  let dsr :=
    if (0 <? income)%float
    then ((existing_loans + monthly_installment) / income)%float
    else 1.0%float in
  '(decision, suggestions) ←
    (if (dsr <=? 0.45)%float then Some ("Accepted", [])
     else if (dsr <=? 0.60)%float then
       let suggestions :=
         ["Consider increasing your down payment to reduce the monthly installment."] in
       let suggestions :=
         if (0 <? existing_loans)%float then
           suggestions ++ ["Pay off some existing loans to lower your total obligations."]
         else suggestions in
       let suggestions :=
         if (0.5 * income <? expenses)%float then
           suggestions ++ ["Try to reduce your monthly expenses."]
         else suggestions in
       let allowed := default [months] (installment_options !! asset_type_norm) in
       let longer_terms := filter (λ m, months < m) allowed in
       let suggestions :=
         match longer_terms with
         | m :: _ => suggestions ++ [extend_to m]
         | [] => suggestions
         end in
       Some ("Review", suggestions)
     else
       let suggestions := [] in
       let suggestions :=
         if (0 <? existing_loans)%float then
           suggestions ++ ["Pay off existing loans to reduce your DSR."]
         else suggestions in
       let suggestions :=
         if (income <? (existing_loans + monthly_installment) / 0.58)%float then
           suggestions ++ ["Increase your net monthly income."]
         else suggestions in
       let suggestions :=
         suggestions ++ ["Increase your down payment to reduce the financed amount."] in
       longest ← Py.max_of (default [months] (installment_options !! asset_type_norm));
       let suggestions :=
         if months <? longest then suggestions ++ [extend_to longest]
         else suggestions in
       Some ("Rejected", suggestions));
  Some {|
    Processed.customer_id := Row.customer_id row;
    Processed.name := Row.name row;
    Processed.gender := Row.gender row;
    Processed.age := Row.age row;
    Processed.job_type := Row.job_type row;
    Processed.income := income;
    Processed.expenses := expenses;
    Processed.credit_history := Row.credit_history row;
    Processed.existing_loans := existing_loans;
    Processed.financing_type := Row.financing_type row;
    Processed.asset_type := asset_type_norm;
    Processed.asset_value := asset_value;
    Processed.down_payment := down_payment;
    Processed.installment_period := months;
    Processed.monthly_installment := monthly_installment;
    Processed.total_cost := total_cost;
    Processed.dsr := dsr;
    Processed.decision := decision;
    Processed.suggestions := Py.join newline suggestions
  |}.

Module Customer.
(** The columns of [models.Customer] read when a decision is displayed. *)
Record t : Type := mk {
  dsr : option float;
  decision : option string;
  ml_final_decision : option string;
  manual_decision : option string
}.
End Customer.

(** [_policy_decision_from_dsr] of [app/main.py]. *)
Definition _policy_decision_from_dsr (dsr : float) : string :=
  if (0.60 <? dsr)%float then "Rejected"
  else if (dsr <=? 0.45)%float then "Accepted"
  else "Review".

(** [float(c.dsr or 0.0)]: an absent [dsr], [0.0] and [-0.0] read as
    [0.0]; NaN is true and is kept. *)
Definition dsr_or_zero (dsr : option float) : float :=
  match dsr with
  | Some d => if (d =? 0)%float then 0.0%float else d
  | None => 0.0%float
  end.

(** [final_display], as computed for each row of [customer_applications]
    and in [customer_detail]. *)
Definition final_display (c : Customer.t) : option string :=
  let policy_final := _policy_decision_from_dsr (dsr_or_zero (Customer.dsr c)) in
  Py.or_ (Customer.manual_decision c)
    (Py.or_ (Some policy_final)
       (Py.or_ (Customer.ml_final_decision c) (Customer.decision c))).

(** ** Definitions used to state the properties *)

(** The local [total_cost] of [process_customer_row], for a chosen period. *)
Definition total_cost_of (row : Row.t) (months : Z) : float :=
  ((Row.asset_value row - Row.down_payment row)
   * (1 + 0.10 * (Py.float_of_int months / 12)))%float.

(** The local [monthly_installment], where the division does not raise. *)
Definition monthly_installment_of (row : Row.t) (months : Z) : float :=
  (total_cost_of row months / Py.float_of_int months)%float.

(** The local [dsr]. *)
Definition dsr_of (row : Row.t) (months : Z) : float :=
  if (0 <? Row.income row)%float then
    ((Row.existing_loans row + monthly_installment_of row months)
     / Row.income row)%float
  else 1.0%float.

(** The returned dict, given the period and the outcome of the branch. *)
Definition processed_of (row : Row.t) (months : Z)
    (decision : string) (suggestions : list string) : Processed.t := {|
  Processed.customer_id := Row.customer_id row;
  Processed.name := Row.name row;
  Processed.gender := Row.gender row;
  Processed.age := Row.age row;
  Processed.job_type := Row.job_type row;
  Processed.income := Row.income row;
  Processed.expenses := Row.expenses row;
  Processed.credit_history := Row.credit_history row;
  Processed.existing_loans := Row.existing_loans row;
  Processed.financing_type := Row.financing_type row;
  Processed.asset_type := _normalize_asset_type (Row.asset_type row);
  Processed.asset_value := Row.asset_value row;
  Processed.down_payment := Row.down_payment row;
  Processed.installment_period := months;
  Processed.monthly_installment := monthly_installment_of row months;
  Processed.total_cost := total_cost_of row months;
  Processed.dsr := dsr_of row months;
  Processed.decision := decision;
  Processed.suggestions := Py.join newline suggestions
|}.

(** A row whose [dsr] is a given value: unit income, that much existing
    debt, nothing financed. *)
Definition row_with_dsr (dsr : float) : Row.t := {|
  Row.customer_id := ""; Row.name := ""; Row.gender := ""; Row.age := 0;
  Row.job_type := ""; Row.income := 1; Row.expenses := 0;
  Row.credit_history := ""; Row.existing_loans := dsr;
  Row.financing_type := ""; Row.asset_type := None;
  Row.asset_value := 0; Row.down_payment := 0;
  Row.installment_period := Py.VNone
|}.

(** The first end-to-end example: income 5000, asset 50000, down payment
    10000, 60 months. *)
Definition row_earning : Row.t := {|
  Row.customer_id := "C-1"; Row.name := "B"; Row.gender := "M"; Row.age := 35;
  Row.job_type := "Engineer"; Row.income := 5000; Row.expenses := 1000;
  Row.credit_history := "Good"; Row.existing_loans := 0;
  Row.financing_type := "Murabaha"; Row.asset_type := Some "car";
  Row.asset_value := 50000; Row.down_payment := 10000;
  Row.installment_period := Py.VInt 60
|}.

(** The same applicant, the cell of the existing loans left blank in the
    CSV file: [pandas] reads it as NaN. *)
Definition row_blank_loans : Row.t := {|
  Row.customer_id := "C-5"; Row.name := "B"; Row.gender := "M"; Row.age := 35;
  Row.job_type := "Engineer"; Row.income := 5000; Row.expenses := 1000;
  Row.credit_history := "Good"; Row.existing_loans := nan;
  Row.financing_type := "Murabaha"; Row.asset_type := Some "car";
  Row.asset_value := 50000; Row.down_payment := 10000;
  Row.installment_period := Py.VInt 60
|}.

(** The same row with another income and another down payment. *)
Definition with_income_and_down_payment (row : Row.t) (income d : float)
    : Row.t := {|
  Row.customer_id := Row.customer_id row;
  Row.name := Row.name row;
  Row.gender := Row.gender row;
  Row.age := Row.age row;
  Row.job_type := Row.job_type row;
  Row.income := income;
  Row.expenses := Row.expenses row;
  Row.credit_history := Row.credit_history row;
  Row.existing_loans := Row.existing_loans row;
  Row.financing_type := Row.financing_type row;
  Row.asset_type := Row.asset_type row;
  Row.asset_value := Row.asset_value row;
  Row.down_payment := d;
  Row.installment_period := Row.installment_period row
|}.

End F64.

(** * Properties *)

(** ** Comparisons of rationals *)

Lemma flt_true (x y : Q) : Py.flt x y = true ↔ (x < y)%Q.
Proof.
  unfold Py.flt. rewrite Qlt_alt. destruct (x ?= y)%Q; split; congruence.
Qed.

Lemma flt_false (x y : Q) : Py.flt x y = false ↔ (y <= x)%Q.
Proof.
  rewrite <- not_true_iff_false, flt_true. split.
  - apply Qnot_lt_le.
  - apply Qle_not_lt.
Qed.

Lemma fle_true (x y : Q) : Py.fle x y = true ↔ (x <= y)%Q.
Proof. apply Qle_bool_iff. Qed.

Lemma fle_false (x y : Q) : Py.fle x y = false ↔ (y < x)%Q.
Proof.
  rewrite <- not_true_iff_false, fle_true. split.
  - apply Qnot_le_lt.
  - apply Qlt_not_le.
Qed.

Lemma truediv_Some (x y : Q) :
  ¬ (y == 0)%Q → Py.truediv x y = Some (x / y)%Q.
Proof.
  intros Hy. unfold Py.truediv.
  destruct (Qeq_bool y 0) eqn:E; [|done].
  by apply Qeq_bool_iff in E.
Qed.

(** ** Binary64 comparisons *)

Lemma SFcompare_antisym (x y : spec_float) :
  SFcompare y x = option_map CompOpp (SFcompare x y).
Proof.
  destruct x as [[]|[]| |[] m1 e1], y as [[]|[]| |[] m2 e2];
    simpl; try reflexivity;
    rewrite (Z.compare_antisym e1 e2);
    destruct (e1 ?= e2); simpl; try reflexivity;
    rewrite (Pos.compare_cont_antisym m1 m2 Eq); simpl;
    destruct (Pos.compare_cont Eq m2 m1); reflexivity.
Qed.

Lemma SFcompare_None (x y : spec_float) :
  SFcompare x y = None ↔ x = S754_nan ∨ y = S754_nan.
Proof.
  destruct x as [[]|[]| |[] m1 e1], y as [[]|[]| |[] m2 e2];
    simpl; split; try discriminate; try tauto;
    intros [?|?]; discriminate.
Qed.

Lemma is_nan_spec (x : float) :
  PrimFloat.is_nan x = true ↔ Prim2SF x = S754_nan.
Proof.
  unfold PrimFloat.is_nan. rewrite FloatAxioms.eqb_spec. unfold SFeqb.
  destruct (Prim2SF x) as [[]|[]| |[] m e]; simpl;
    rewrite ?Z.compare_refl, ?Pos.compare_cont_refl; simpl;
    split; try discriminate; tauto.
Qed.

Lemma is_nan_false (x : float) :
  PrimFloat.is_nan x = false ↔ Prim2SF x ≠ S754_nan.
Proof. rewrite <- is_nan_spec. symmetry. apply not_true_iff_false. Qed.

(** A comparison with NaN does not hold. *)
Lemma leb_nan_l (x y : float) :
  PrimFloat.is_nan x = true → (x <=? y)%float = false.
Proof.
  intros Hx%is_nan_spec. rewrite FloatAxioms.leb_spec, Hx. reflexivity.
Qed.

Lemma ltb_nan_r (x y : float) :
  PrimFloat.is_nan y = true → (x <? y)%float = false.
Proof.
  intros Hy%is_nan_spec. rewrite FloatAxioms.ltb_spec, Hy. unfold SFltb.
  by destruct (Prim2SF x) as [[]|[]| |[] m e].
Qed.

(** Off NaN, [x <= y] is the negation of [y < x]. *)
Lemma leb_ltb (x y : float) :
  PrimFloat.is_nan x = false → PrimFloat.is_nan y = false →
  (x <=? y)%float = negb (y <? x)%float.
Proof.
  intros Hx%is_nan_false Hy%is_nan_false.
  rewrite FloatAxioms.leb_spec, FloatAxioms.ltb_spec. unfold SFleb, SFltb.
  rewrite (SFcompare_antisym (Prim2SF x) (Prim2SF y)).
  destruct (SFcompare (Prim2SF x) (Prim2SF y)) as [[]|] eqn:E; try reflexivity.
  apply SFcompare_None in E. tauto.
Qed.

(** [x <= y] excludes [y < x], NaN or not. *)
Lemma leb_not_ltb (x y : float) :
  (x <=? y)%float = true → (y <? x)%float = false.
Proof.
  rewrite FloatAxioms.leb_spec, FloatAxioms.ltb_spec. unfold SFleb, SFltb.
  rewrite (SFcompare_antisym (Prim2SF x) (Prim2SF y)).
  by destruct (SFcompare (Prim2SF x) (Prim2SF y)) as [[]|].
Qed.

Lemma Prim2SF_045 :
  Prim2SF 0.45 = S754_finite false 8106479329266893 (-54).
Proof. by vm_compute. Qed.

Lemma Prim2SF_060 :
  Prim2SF 0.60 = S754_finite false 5404319552844595 (-53).
Proof. by vm_compute. Qed.

Lemma Prim2SF_zero : Prim2SF 0 = S754_zero false.
Proof. by vm_compute. Qed.

(** What is at most 0.45 is at most 0.60. *)
Lemma leb_045_060 (x : float) :
  (x <=? 0.45)%float = true → (x <=? 0.60)%float = true.
Proof.
  rewrite !FloatAxioms.leb_spec, Prim2SF_045, Prim2SF_060. unfold SFleb.
  destruct (Prim2SF x) as [[]|[]| |[] m e]; cbv [SFcompare]; try congruence.
  destruct (Z.compare_spec e (-54)) as [->|H|H].
  - done.
  - intros _. assert ((e ?= -53) = Lt) as -> by (apply Z.compare_lt_iff; lia).
    done.
  - done.
Qed.

(** A float equal to zero is one of the two zeros. *)
Lemma float_eqb_zero (x : float) :
  (x =? 0)%float = true → ∃ sign, Prim2SF x = S754_zero sign.
Proof.
  rewrite FloatAxioms.eqb_spec, Prim2SF_zero. unfold SFeqb.
  destruct (Prim2SF x) as [[]|[]| |[] m e]; simpl; try discriminate; eauto.
Qed.

(** ** [min] with a key returns the first minimiser *)

Section min_by.
Context {A : Type} (key : A → Z).

Lemma min_go_split (best : A) (l : list A) :
  ∃ l1 l2, best :: l = l1 ++ Py.min_go key best l :: l2
    ∧ Forall (λ a, key (Py.min_go key best l) < key a) l1
    ∧ Forall (λ a, key (Py.min_go key best l) ≤ key a) l2.
Proof.
  revert best. induction l as [|x l IH]; intros best; simpl.
  - exists [], []. by repeat split.
  - destruct (Z.ltb_spec (key x) (key best)) as [Hlt|Hge].
    + destruct (IH x) as (l1 & l2 & Heq & H1 & H2).
      remember (Py.min_go key x l) as m eqn:Hm. clear Hm.
      assert (key m ≤ key x) as Hmx.
      { destruct l1 as [|y l1]; simpl in Heq; injection Heq as -> Heq; [lia|].
        apply Forall_cons in H1 as [? _]. lia. }
      exists (best :: l1), l2. split; [by rewrite Heq|].
      split; [|done]. constructor; [lia|done].
    + destruct (IH best) as (l1 & l2 & Heq & H1 & H2).
      remember (Py.min_go key best l) as m eqn:Hm. clear Hm.
      destruct l1 as [|y l1]; simpl in Heq; injection Heq as -> Heq.
      * exists [], (x :: l2). split; [by rewrite Heq|].
        split; [done|]. constructor; [lia|done].
      * apply Forall_cons in H1 as [Hy H1].
        exists (y :: x :: l1), l2. split; [by rewrite Heq|].
        split; [|done]. constructor; [done|]. constructor; [lia|done].
Qed.

Lemma min_by_Some (l : list A) (m : A) :
  Py.min_by key l = Some m →
  ∃ l1 l2, l = l1 ++ m :: l2
    ∧ Forall (λ a, key m < key a) l1
    ∧ Forall (λ a, key m ≤ key a) l2.
Proof.
  destruct l as [|x l]; simpl; [done|].
  intros [= <-]. apply min_go_split.
Qed.

Lemma min_by_elem_of (l : list A) (m : A) :
  Py.min_by key l = Some m → m ∈ l.
Proof.
  intros (l1 & l2 & -> & _)%min_by_Some. set_solver.
Qed.

Lemma min_by_least (l : list A) (m a : A) :
  Py.min_by key l = Some m → a ∈ l → key m ≤ key a.
Proof.
  intros (l1 & l2 & -> & H1 & H2)%min_by_Some Ha.
  rewrite Forall_forall in H1. rewrite Forall_forall in H2.
  apply elem_of_app in Ha as [Ha|Ha].
  - apply H1 in Ha. lia.
  - apply elem_of_cons in Ha as [->|Ha]; [lia|]. by apply H2.
Qed.

Lemma min_by_is_Some (l : list A) : l ≠ [] → is_Some (Py.min_by key l).
Proof. destruct l; [done|]. by eexists. Qed.
End min_by.

(** ** The table of allowed periods *)

Lemma installment_options_lookup (asset_type : string) (allowed : list Z) :
  installment_options !! asset_type = Some allowed →
  asset_type = "Car" ∧ allowed = [36; 48; 60; 72; 84]
  ∨ asset_type = "House" ∧ allowed = [120; 180; 240; 300]
  ∨ asset_type = "Equipment" ∧ allowed = [12; 24; 36; 48; 60].
Proof.
  unfold installment_options.
  rewrite !lookup_insert_Some, lookup_singleton_Some. intuition auto.
Qed.

Lemma periods_ok_get (asset_type : string) (fallback : Z) :
  0 < fallback →
  periods_ok (default [fallback] (installment_options !! asset_type)).
Proof.
  intros Hpos.
  destruct (installment_options !! asset_type) as [allowed|] eqn:E; simpl.
  - apply installment_options_lookup in E as [[_ ->]|[[_ ->]|[_ ->]]];
      (split; [done|split; [by repeat constructor|]]);
      repeat (constructor; [|by repeat constructor]); constructor.
  - split; [done|]. split; repeat constructor. done.
Qed.

Lemma periods_ok_head (l : list Z) :
  periods_ok l →
  ∃ smallest, l !! 0%nat = Some smallest ∧ ∀ a, a ∈ l → smallest ≤ a.
Proof.
  intros (Hne & _ & Hs). destruct l as [|x l]; [done|].
  exists x. split; [done|]. intros a [->|Ha]%elem_of_cons; [lia|].
  apply StronglySorted_cons in Hs as [Hx _].
  rewrite Forall_forall in Hx. apply Hx in Ha. lia.
Qed.

(** A falsy request never parses to a non-zero integer. *)
Lemma truthy_false_to_int (v : Py.value) (n : Z) :
  Py.truthy v = false → _to_int_or_none v = Some n → n = 0.
Proof.
  destruct v as [|k|f|s]; simpl; [done| | |].
  - intros Hk [= <-]. apply negb_false_iff in Hk. lia.
  - intros Hf%negb_false_iff Hn.
    destruct (float_eqb_zero _ Hf) as [sign Hz].
    unfold Py.int_of_float in Hn. rewrite Hz in Hn. by injection Hn.
  - intros Hs%negb_false_iff. apply String.eqb_eq in Hs as ->.
    by vm_compute.
Qed.

(** Below every allowed period, the nearest one is the first. *)
Lemma min_by_below (l : list Z) (n smallest : Z) :
  periods_ok l → l !! 0%nat = Some smallest → n ≤ 0 →
  Py.min_by (λ x, Z.abs (x - n)) l = Some smallest.
Proof.
  intros (Hne & Hpos & Hs) Hhd Hn.
  destruct l as [|x l]; [done|]. injection Hhd as ->.
  destruct (min_by_is_Some (λ x, Z.abs (x - n)) (smallest :: l)) as [m Hm]; [done|].
  rewrite Hm. f_equal.
  pose proof (min_by_elem_of _ _ _ Hm) as Hin.
  pose proof (min_by_least _ _ _ smallest Hm) as Hle.
  rewrite Forall_forall in Hpos.
  assert (smallest ∈ smallest :: l) as Hhd by constructor.
  pose proof (Hpos m Hin). pose proof (Hpos smallest Hhd).
  destruct (proj1 (elem_of_cons _ _ _) Hin) as [Heq|Hin']; [done|].
  apply StronglySorted_cons in Hs as [Hx _].
  rewrite Forall_forall in Hx. apply Hx in Hin'.
  specialize (Hle Hhd). simpl in Hle. lia.
Qed.

(** Where two allowed periods are equally near, [min] keeps the smaller. *)
Lemma min_by_tie (l : list Z) (n m a : Z) :
  StronglySorted Z.lt l →
  Py.min_by (λ x, Z.abs (x - n)) l = Some m →
  a ∈ l → Z.abs (a - n) = Z.abs (m - n) → m ≤ a.
Proof.
  intros Hs (l1 & l2 & -> & H1 & _)%min_by_Some Ha Heq.
  rewrite Forall_forall in H1.
  apply elem_of_app in Ha as [Ha|Ha].
  - apply H1 in Ha. lia.
  - apply StronglySorted_app_1_r, StronglySorted_cons in Hs as [Hm _].
    rewrite Forall_forall in Hm.
    apply elem_of_cons in Ha as [->|Ha]; [lia|]. apply Hm in Ha. lia.
Qed.

(** ** Installment normalizer *)

(** Every way through [_pick_installment_period] ends in an allowed period. *)
Lemma pick_installment_period_allowed (asset_type : string) (requested_months : Py.value) :
  ∃ months,
    _pick_installment_period asset_type requested_months = Some months
    ∧ months ∈ default [36] (installment_options !! asset_type).
Proof.
  unfold _pick_installment_period.
  pose proof (periods_ok_get asset_type 36 ltac:(lia)) as Hok.
  destruct (periods_ok_head _ Hok) as (smallest & Hhd & _).
  assert (smallest ∈ default [36] (installment_options !! asset_type)) as Hin
    by (eapply list_elem_of_lookup; eauto).
  set (allowed := default [36] (installment_options !! asset_type)) in *.
  destruct (Py.truthy requested_months); simpl; [|by eauto].
  destruct (_to_int_or_none requested_months) as [requested|]; [|by eauto].
  destruct (requested =? 0); [by eauto|].
  case_bool_decide as Hmem; simpl; [by eauto|].
  destruct (min_by_is_Some (λ x, Z.abs (x - requested)) allowed) as [m Hm];
    [apply Hok|].
  exists m. split; [done|]. by eapply min_by_elem_of.
Qed.

(** A float request is answered as the integer it truncates to. *)
Lemma pick_float_as_int (asset_type : string) (f : float) (n : Z) :
  Py.int_of_float f = Some n →
  _pick_installment_period asset_type (Py.VFloat f)
  = _pick_installment_period asset_type (Py.VInt n).
Proof.
  intros Hn. unfold _pick_installment_period.
  cbn [Py.truthy _to_int_or_none]. rewrite Hn.
  destruct (f =? 0)%float eqn:Hf; cbn [negb].
  - destruct (float_eqb_zero _ Hf) as [sign Hz].
    unfold Py.int_of_float in Hn. rewrite Hz in Hn. injection Hn as <-.
    done.
  - by destruct (n =? 0).
Qed.

(** C4, as stated, fails for a fractional request: for "Car" the request
    54.5 is answered with 48, although the allowed period 60 is strictly
    nearer to 54.5 than 48 is.  The request is truncated to 54 first. *)
Lemma fractional_request_is_truncated :
  _pick_installment_period "Car" (Py.VFloat 54.5) = Some 48
  ∧ installment_options !! "Car" = Some [36; 48; 60; 72; 84]
  ∧ (abs (60 - 54.5) <? abs (48 - 54.5))%float = true
  ∧ _to_int_or_none (Py.VFloat 54.5) = Some 54.
Proof. by vm_compute. Qed.

(** C4, amended. For every asset type and request, with [allowed] the
    list the type maps to, the request counts as the integer that [int]
    converts it to, a float being truncated toward zero: a request that is
    absent or does not convert to a positive integer gives the smallest
    allowed period; a request that converts to an allowed period gives
    that period; any other request gives an allowed period of least
    distance to the converted request, the smaller one when two are
    equally near.  A float request is answered as the integer it
    truncates to, and an infinite or NaN request with the smallest
    period.  For "Car", 50 gives 48, and so does 54.5. *)
Theorem pick_installment_period_snaps (asset_type : string) (requested_months : Py.value) :
  let allowed := default [36] (installment_options !! asset_type) in
  let chosen := _pick_installment_period asset_type requested_months in
  ∃ smallest : Z,
    allowed !! 0%nat = Some smallest
    ∧ (∀ a, a ∈ allowed → smallest ≤ a)
    ∧ (requested_months = Py.VNone → chosen = Some smallest)
    ∧ ((∀ n, _to_int_or_none requested_months = Some n → n ≤ 0) →
       chosen = Some smallest)
    ∧ (∀ n, _to_int_or_none requested_months = Some n → n ∈ allowed →
       chosen = Some n)
    ∧ (∀ n, _to_int_or_none requested_months = Some n → 0 < n → n ∉ allowed →
       ∃ m, chosen = Some m ∧ m ∈ allowed
         ∧ (∀ a, a ∈ allowed → Z.abs (m - n) ≤ Z.abs (a - n))
         ∧ (∀ a, a ∈ allowed → Z.abs (a - n) = Z.abs (m - n) → m ≤ a))
    ∧ (∀ f n, Py.int_of_float f = Some n →
       _pick_installment_period asset_type (Py.VFloat f)
       = _pick_installment_period asset_type (Py.VInt n))
    ∧ (∀ f, Py.int_of_float f = None →
       _pick_installment_period asset_type (Py.VFloat f) = Some smallest)
    ∧ _pick_installment_period "Car" (Py.VInt 50) = Some 48
    ∧ Py.int_of_float 54.5 = Some 54
    ∧ _pick_installment_period "Car" (Py.VFloat 54.5) = Some 48.
Proof.
  intros allowed chosen.
  pose proof (periods_ok_get asset_type 36 ltac:(lia)) as Hok.
  fold allowed in Hok.
  destruct (periods_ok_head _ Hok) as (smallest & Hhd & Hleast).
  assert (∀ n, n ∈ allowed → 0 < n) as Hpos.
  { destruct Hok as (_ & Hpos & _). by rewrite Forall_forall in Hpos. }
  assert ((∀ n, _to_int_or_none requested_months = Some n → n ≤ 0) →
          chosen = Some smallest) as Hsmall.
  { intros Hnp. subst chosen. unfold _pick_installment_period. fold allowed.
    destruct (Py.truthy requested_months); simpl; [|done].
    destruct (_to_int_or_none requested_months) as [n|]; [|done].
    specialize (Hnp n eq_refl).
    destruct (Z.eqb_spec n 0); [done|].
    case_bool_decide as Hmem; simpl.
    - apply Hpos in Hmem. lia.
    - by apply min_by_below. }
  exists smallest.
  split_and!; [done|done| |done| | | | |by vm_compute..].
  - intros ->. by apply Hsmall.
  - intros n Hn Hmem. subst chosen. unfold _pick_installment_period.
    fold allowed. pose proof (Hpos n Hmem).
    destruct (Py.truthy requested_months) eqn:Ht; simpl.
    + rewrite Hn. destruct (Z.eqb_spec n 0); [lia|].
      by rewrite bool_decide_true.
    + pose proof (truthy_false_to_int _ _ Ht Hn). lia.
  - intros n Hn Hn0 Hmem. subst chosen. unfold _pick_installment_period.
    fold allowed.
    destruct (Py.truthy requested_months) eqn:Ht; simpl.
    + rewrite Hn. destruct (Z.eqb_spec n 0); [lia|].
      rewrite bool_decide_false by done. simpl.
      destruct (min_by_is_Some (λ x, Z.abs (x - n)) allowed) as [m Hm];
        [apply Hok|].
      exists m. split; [done|]. split; [by eapply min_by_elem_of|]. split.
      * intros a Ha. by apply (min_by_least _ _ _ a Hm).
      * intros a Ha Heq. eapply min_by_tie; eauto. apply Hok.
    + pose proof (truthy_false_to_int _ _ Ht Hn). lia.
  - intros f n Hn. by apply pick_float_as_int.
  - intros f Hf. unfold _pick_installment_period. fold allowed.
    cbn [_to_int_or_none]. rewrite Hf. by destruct (Py.truthy _).
Qed.

(** ** [max] and the first longer period *)

Lemma fold_left_max_spec (l : list Z) (x : Z) :
  fold_left Z.max l x ∈ x :: l ∧ ∀ a, a ∈ x :: l → a ≤ fold_left Z.max l x.
Proof.
  revert x. induction l as [|y l IH]; intros x; simpl.
  - split; [constructor|]. intros a Ha. apply list_elem_of_singleton in Ha. lia.
  - destruct (IH (Z.max x y)) as [Hin Hle]. split.
    + apply elem_of_cons in Hin as [Heq|Hin].
      * rewrite Heq. destruct (Z.max_spec x y) as [[_ ->]|[_ ->]];
          [right; left|left].
      * by do 2 right.
    + intros a Ha. apply elem_of_cons in Ha as [Heq|Ha].
      * subst a. specialize (Hle (Z.max x y) ltac:(constructor)). lia.
      * apply elem_of_cons in Ha as [Heq|Ha].
        -- subst a. specialize (Hle (Z.max x y) ltac:(constructor)). lia.
        -- apply Hle. by right.
Qed.

Lemma max_of_spec (l : list Z) :
  l ≠ [] →
  ∃ longest, Py.max_of l = Some longest
    ∧ longest ∈ l ∧ ∀ a, a ∈ l → a ≤ longest.
Proof.
  destruct l as [|x l]; [done|]. intros _.
  exists (fold_left Z.max l x). split; [done|]. apply fold_left_max_spec.
Qed.



(** ** [process_customer_row], branch by branch *)

Lemma process_customer_row_cases (row : Row.t) :
  let asset_type_norm := _normalize_asset_type (Row.asset_type row) in
  ∃ months,
    _pick_installment_period asset_type_norm (Row.installment_period row)
      = Some months
    ∧ months ∈ default [36] (installment_options !! asset_type_norm)
    ∧ 0 < months
    ∧ (Py.fle (dsr_of row months) 0.45 = true
       ∧ process_customer_row row
         = Some (processed_of row months "Accepted" [])
       ∨ Py.fle (dsr_of row months) 0.45 = false
         ∧ Py.fle (dsr_of row months) 0.60 = true
         ∧ process_customer_row row
           = Some (processed_of row months "Review"
                     (review_suggestions row months))
       ∨ Py.fle (dsr_of row months) 0.45 = false
         ∧ Py.fle (dsr_of row months) 0.60 = false
         ∧ ∃ longest,
             Py.max_of (default [months] (installment_options !! asset_type_norm))
               = Some longest
             ∧ process_customer_row row
               = Some (processed_of row months "Rejected"
                         (rejected_suggestions row months longest))).
Proof.
  intros asset_type_norm.
  destruct (pick_installment_period_allowed asset_type_norm
              (Row.installment_period row)) as (months & Hpick & Hmem).
  assert (0 < months) as Hpos.
  { destruct (periods_ok_get asset_type_norm 36 ltac:(lia)) as (_ & Hpos & _).
    rewrite Forall_forall in Hpos. by apply Hpos. }
  exists months. split_and!; [done..|].
  assert (¬ (inject_Z months == 0)%Q) as Hnz.
  { unfold Qeq. simpl. lia. }
  unfold process_customer_row. fold asset_type_norm. rewrite Hpick.
  cbn [mbind option_bind]. rewrite (truediv_Some _ _ Hnz).
  cbn [mbind option_bind].
  fold (total_cost_of row months). fold (monthly_installment_of row months).
  fold (dsr_of row months).
  destruct (Py.fle (dsr_of row months) 0.45) eqn:E45.
  { left. split; [done|]. reflexivity. }
  right. destruct (Py.fle (dsr_of row months) 0.60) eqn:E60.
  { left. split; [done|]. split; [done|].
    cbn [mbind option_bind]. unfold processed_of, review_suggestions.
    fold asset_type_norm.
    destruct (Py.flt 0 (Row.existing_loans row)),
      (Py.flt (0.5 * Row.income row) (Row.expenses row)),
      (filter _ _); reflexivity. }
  right. split; [done|]. split; [done|].
  destruct (max_of_spec (default [months] (installment_options !! asset_type_norm)))
    as (longest & Hmax & _).
  { apply (periods_ok_get asset_type_norm months Hpos). }
  exists longest. split; [done|]. rewrite Hmax.
  cbn [mbind option_bind]. unfold processed_of, rejected_suggestions.
  destruct (Py.flt 0 (Row.existing_loans row)),
    (Py.flt (Row.income row) _), (months <? longest); reflexivity.
Qed.

(** [process_customer_row] always returns, with a positive allowed period. *)
Lemma process_customer_row_Some (row : Row.t) :
  let asset_type_norm := _normalize_asset_type (Row.asset_type row) in
  ∃ months decision suggestions,
    _pick_installment_period asset_type_norm (Row.installment_period row)
      = Some months
    ∧ months ∈ default [36] (installment_options !! asset_type_norm)
    ∧ 0 < months
    ∧ process_customer_row row
      = Some (processed_of row months decision suggestions).
Proof.
  intros asset_type_norm.
  destruct (process_customer_row_cases row)
    as (months & Hpick & Hmem & Hpos & Hcases).
  exists months.
  destruct Hcases as [[_ H]|[(_ & _ & H)|(_ & _ & longest & _ & H)]];
    do 2 eexists; split_and!; done.
Qed.

Lemma inject_Z_pos (n : Z) : 0 < n → (0 < inject_Z n)%Q.
Proof. intros Hn. unfold Qlt. simpl. lia. Qed.

(** The normalizer alone: for every asset type string and every request
    the period exists, is allowed for that type, and is positive. *)
Lemma pick_installment_period_positive (asset_type : string) (requested_months : Py.value) :
  ∃ months,
    _pick_installment_period asset_type requested_months = Some months
    ∧ months ∈ default [36] (installment_options !! asset_type)
    ∧ 0 < months.
Proof.
  destruct (pick_installment_period_allowed asset_type requested_months)
    as (months & Hpick & Hmem).
  exists months. split_and!; [done..|].
  destruct (periods_ok_get asset_type 36 ltac:(lia)) as (_ & Hpos & _).
  rewrite Forall_forall in Hpos. by apply Hpos.
Qed.

(** C9. For every asset type and every request the period chosen by
    [_pick_installment_period] exists, is a member of the allowed list of
    the type and is positive; so for every row the division of the total
    cost by the period does not raise, and [process_customer_row] returns
    a result carrying that period. *)
Theorem installment_period_allowed_and_positive :
  (∀ (asset_type : string) (requested_months : Py.value),
     ∃ months,
       _pick_installment_period asset_type requested_months = Some months
       ∧ months ∈ default [36] (installment_options !! asset_type)
       ∧ 0 < months)
  ∧ (∀ row : Row.t,
       let asset_type_norm := _normalize_asset_type (Row.asset_type row) in
       ∃ months processed,
         _pick_installment_period asset_type_norm (Row.installment_period row)
           = Some months
         ∧ 0 < months
         ∧ Py.truediv (total_cost_of row months) (inject_Z months)
           = Some (total_cost_of row months / inject_Z months)%Q
         ∧ process_customer_row row = Some processed
         ∧ Processed.installment_period processed = months
         ∧ (Processed.monthly_installment processed
            == Processed.total_cost processed / inject_Z months)%Q).
Proof.
  split; [apply pick_installment_period_positive|].
  intros row asset_type_norm.
  destruct (process_customer_row_Some row)
    as (months & decision & suggestions & Hpick & Hmem & Hpos & Hrow).
  exists months, (processed_of row months decision suggestions).
  split_and!; try done.
  apply truediv_Some. pose proof (inject_Z_pos _ Hpos). lra.
Qed.

(** ** Decision policy: the two threshold ladders *)

Lemma policy_decision_spec (dsr : Q) :
  (_policy_decision_from_dsr dsr = "Accepted" ↔ (dsr <= 0.45)%Q)
  ∧ (_policy_decision_from_dsr dsr = "Review" ↔ (0.45 < dsr)%Q ∧ (dsr <= 0.60)%Q)
  ∧ (_policy_decision_from_dsr dsr = "Rejected" ↔ (0.60 < dsr)%Q).
Proof.
  unfold _policy_decision_from_dsr.
  destruct (Py.flt 0.60 dsr) eqn:E60; [apply flt_true in E60|apply flt_false in E60];
    (destruct (Py.fle dsr 0.45) eqn:E45;
      [apply fle_true in E45|apply fle_false in E45]);
    split_and!; split; try done; try lra; intros [? ?]; lra.
Qed.

Lemma policy_decision_proper (x y : Q) :
  (x == y)%Q → _policy_decision_from_dsr x = _policy_decision_from_dsr y.
Proof.
  intros Heq.
  destruct (policy_decision_spec x) as (Ha & Hr & Hj).
  destruct (policy_decision_spec y) as (Ha' & Hr' & Hj').
  destruct (Qlt_le_dec 0.60 x) as [H60|H60].
  - rewrite (proj2 Hj H60). symmetry. apply Hj'. lra.
  - destruct (Qlt_le_dec 0.45 x) as [H45|H45].
    + rewrite (proj2 Hr (conj H45 H60)). symmetry. apply Hr'. lra.
    + rewrite (proj2 Ha H45). symmetry. apply Ha'. lra.
Qed.

(** ** The evaluation in binary64 *)

(** Every period of the table, and the fallback 36, is a float that is
    not zero and that converts back to the period. *)
Lemma float_of_int_period (asset_type : string) (m : Z) :
  m ∈ default [36] (installment_options !! asset_type) →
  (Py.float_of_int m =? 0)%float = false
  ∧ Py.int_of_float (Py.float_of_int m) = Some m.
Proof.
  destruct (installment_options !! asset_type) as [allowed|] eqn:E; simpl.
  - apply installment_options_lookup in E as [[_ ->]|[[_ ->]|[_ ->]]];
      rewrite !elem_of_cons, elem_of_nil; intros H;
      repeat (destruct H as [->|H]; [by vm_compute|]); done.
  - rewrite elem_of_cons, elem_of_nil. intros [->|[]]. by vm_compute.
Qed.

(** [F64.process_customer_row], branch by branch. *)
Lemma F64_process_customer_row_cases (row : F64.Row.t) :
  let asset_type_norm := _normalize_asset_type (F64.Row.asset_type row) in
  ∃ months,
    _pick_installment_period asset_type_norm (F64.Row.installment_period row)
      = Some months
    ∧ months ∈ default [36] (installment_options !! asset_type_norm)
    ∧ 0 < months
    ∧ ∃ decision suggestions,
        F64.process_customer_row row
          = Some (F64.processed_of row months decision suggestions)
        ∧ ((F64.dsr_of row months <=? 0.45)%float = true
           ∧ decision = "Accepted"
           ∨ (F64.dsr_of row months <=? 0.45)%float = false
             ∧ (F64.dsr_of row months <=? 0.60)%float = true
             ∧ decision = "Review"
           ∨ (F64.dsr_of row months <=? 0.45)%float = false
             ∧ (F64.dsr_of row months <=? 0.60)%float = false
             ∧ decision = "Rejected").
Proof.
  intros asset_type_norm.
  destruct (pick_installment_period_positive asset_type_norm
              (F64.Row.installment_period row)) as (months & Hpick & Hmem & Hpos).
  exists months. split_and!; [done..|].
  destruct (float_of_int_period _ _ Hmem) as [Hnz _].
  unfold F64.process_customer_row. fold asset_type_norm. rewrite Hpick.
  cbn [mbind option_bind]. unfold Py.fdiv. rewrite Hnz.
  cbn [mbind option_bind].
  fold (F64.total_cost_of row months).
  fold (F64.monthly_installment_of row months).
  fold (F64.dsr_of row months).
  destruct (F64.dsr_of row months <=? 0.45)%float eqn:E45.
  { do 2 eexists. split; [reflexivity|]. by left. }
  destruct (F64.dsr_of row months <=? 0.60)%float eqn:E60.
  { cbn [mbind option_bind]. do 2 eexists. split; [reflexivity|].
    right. by left. }
  destruct (max_of_spec (default [months] (installment_options !! asset_type_norm)))
    as (longest & Hmax & _).
  { apply (periods_ok_get asset_type_norm months Hpos). }
  rewrite Hmax. cbn [mbind option_bind].
  do 2 eexists. split; [reflexivity|]. right. by right.
Qed.

(** C3. Every evaluation returns, for the period that the normalizer
    chooses (a positive period of the allowed list, carried by the result
    and converted exactly to a float), a result whose figures are, each
    operation being the binary64 one,
    [total_cost = (asset_value - down_payment) * (1 + 0.10 * (period / 12))]
    and [monthly_installment = total_cost / period], the divisor not being
    zero; with [income > 0], [dsr = (existing_loans + monthly_installment)
    / income]; with an income for which [income > 0] does not hold, and so
    with [income <= 0], [dsr] is the literal [1.0] and the decision is
    "Rejected". *)
Theorem affordability_figures (row : F64.Row.t) :
  let asset_type_norm := _normalize_asset_type (F64.Row.asset_type row) in
  ∃ months processed,
    _pick_installment_period asset_type_norm (F64.Row.installment_period row)
      = Some months
    ∧ months ∈ default [36] (installment_options !! asset_type_norm)
    ∧ 0 < months
    ∧ F64.process_customer_row row = Some processed
    ∧ F64.Processed.installment_period processed = months
    ∧ let period := Py.float_of_int months in
      let loan_amount :=
        (F64.Row.asset_value row - F64.Row.down_payment row)%float in
      let income := F64.Row.income row in
      Py.int_of_float period = Some months
      ∧ (period =? 0)%float = false
      ∧ F64.Processed.total_cost processed
        = (loan_amount * (1 + 0.10 * (period / 12)))%float
      ∧ F64.Processed.monthly_installment processed
        = (F64.Processed.total_cost processed / period)%float
      ∧ ((0 <? income)%float = true →
         F64.Processed.dsr processed
         = ((F64.Row.existing_loans row
             + F64.Processed.monthly_installment processed) / income)%float)
      ∧ ((0 <? income)%float = false →
         F64.Processed.dsr processed = 1.0%float
         ∧ F64.Processed.decision processed = "Rejected")
      ∧ ((income <=? 0)%float = true →
         F64.Processed.dsr processed = 1.0%float
         ∧ F64.Processed.decision processed = "Rejected").
Proof.
  intros asset_type_norm.
  destruct (F64_process_customer_row_cases row)
    as (months & Hpick & Hmem & Hpos & decision & suggestions & Hrow & Hcases).
  fold asset_type_norm in Hpick, Hmem.
  destruct (float_of_int_period _ _ Hmem) as [Hnz Hback].
  exists months, (F64.processed_of row months decision suggestions).
  assert ((0 <? F64.Row.income row)%float = false →
          F64.dsr_of row months = 1.0%float ∧ decision = "Rejected") as Hone.
  { intros Hinc. unfold F64.dsr_of in *. rewrite Hinc in *.
    split; [done|].
    destruct Hcases as [[H _]|[(_ & H & _)|(_ & _ & H)]];
      [by vm_compute in H|by vm_compute in H|done]. }
  split_and!; [done..|]. cbv zeta.
  cbn [F64.processed_of F64.Processed.total_cost F64.Processed.dsr
       F64.Processed.monthly_installment F64.Processed.decision].
  split_and!; try done.
  - intros Hinc. unfold F64.dsr_of. by rewrite Hinc.
  - intros Hinc%leb_not_ltb. by apply Hone.
Qed.

(** ** The two threshold ladders in binary64 *)

Lemma F64_policy_decision_spec (dsr : float) :
  PrimFloat.is_nan dsr = false →
  (F64._policy_decision_from_dsr dsr = "Accepted" ↔ (dsr <=? 0.45)%float = true)
  ∧ (F64._policy_decision_from_dsr dsr = "Review"
     ↔ (0.45 <? dsr)%float = true ∧ (dsr <=? 0.60)%float = true)
  ∧ (F64._policy_decision_from_dsr dsr = "Rejected" ↔ (0.60 <? dsr)%float = true).
Proof.
  intros Hnan. unfold F64._policy_decision_from_dsr.
  pose proof (leb_ltb dsr 0.45 Hnan eq_refl) as H45.
  pose proof (leb_ltb dsr 0.60 Hnan eq_refl) as H60.
  pose proof (leb_045_060 dsr) as Hle.
  destruct (0.60 <? dsr)%float, (0.45 <? dsr)%float;
    cbn [negb] in H45, H60; rewrite H45, ?H60 in *;
    split_and!; split; try done; try (intros [? ?]; done);
    try (by specialize (Hle eq_refl)).
Qed.

(** On NaN the two ladders part: the evaluation falls through to its
    [else], the reconciliation to its last [return]. *)
Lemma F64_policy_decision_nan (dsr : float) :
  PrimFloat.is_nan dsr = true →
  (dsr <=? 0.45)%float = false ∧ (dsr <=? 0.60)%float = false
  ∧ F64._policy_decision_from_dsr dsr = "Review".
Proof.
  intros Hnan. unfold F64._policy_decision_from_dsr.
  by rewrite (ltb_nan_r _ _ Hnan), !(leb_nan_l _ _ Hnan).
Qed.

(** C2, as stated, fails on NaN: the row of an applicant whose existing
    loans are NaN (a blank CSV cell) has a [dsr] of NaN; the evaluation
    decides "Rejected", the reconciliation ladder says "Review" for that
    [dsr]. *)
Lemma ladders_differ_on_nan :
  ∃ processed,
    F64.process_customer_row F64.row_blank_loans = Some processed
    ∧ PrimFloat.is_nan (F64.Processed.dsr processed) = true
    ∧ F64.Processed.decision processed = "Rejected"
    ∧ F64._policy_decision_from_dsr (F64.Processed.dsr processed) = "Review"
    ∧ F64.Processed.decision processed
      ≠ F64._policy_decision_from_dsr (F64.Processed.dsr processed).
Proof. eexists. split; [by vm_compute|]. by vm_compute. Qed.

(** C2, amended. For every [dsr] that is not NaN the evaluation and the
    reconciliation ladder give the same decision: each evaluation returns
    "Accepted" iff its [dsr <= 0.45], "Review" iff not [dsr <= 0.45] and
    [dsr <= 0.60], "Rejected" iff not [dsr <= 0.60], and off NaN that is
    the policy decision of its [dsr], which is "Accepted" iff
    [dsr <= 0.45], "Review" iff [0.45 < dsr <= 0.60], "Rejected" iff
    [dsr > 0.60].  On NaN the evaluation says "Rejected" and the
    reconciliation "Review".  On both paths 0.45 gives "Accepted", 0.60
    "Review" and 0.6000001 "Rejected"; a record without manual decision
    whose [dsr] is 0.50 displays "Review" whatever its stored decisions
    are. *)
Theorem three_tier_decision_agrees :
  (∀ row : F64.Row.t, ∃ processed,
     F64.process_customer_row row = Some processed
     ∧ let dsr := F64.Processed.dsr processed in
       let decision := F64.Processed.decision processed in
       (decision = "Accepted" ↔ (dsr <=? 0.45)%float = true)
       ∧ (decision = "Review"
          ↔ (dsr <=? 0.45)%float = false ∧ (dsr <=? 0.60)%float = true)
       ∧ (decision = "Rejected" ↔ (dsr <=? 0.60)%float = false)
       ∧ (PrimFloat.is_nan dsr = false →
          decision = F64._policy_decision_from_dsr dsr)
       ∧ (PrimFloat.is_nan dsr = true →
          decision = "Rejected"
          ∧ F64._policy_decision_from_dsr dsr = "Review"))
  ∧ (∀ dsr : float, PrimFloat.is_nan dsr = false →
       (F64._policy_decision_from_dsr dsr = "Accepted"
        ↔ (dsr <=? 0.45)%float = true)
       ∧ (F64._policy_decision_from_dsr dsr = "Review"
          ↔ (0.45 <? dsr)%float = true ∧ (dsr <=? 0.60)%float = true)
       ∧ (F64._policy_decision_from_dsr dsr = "Rejected"
          ↔ (0.60 <? dsr)%float = true))
  ∧ (∀ dsr decision,
       (dsr, decision) ∈ [(0.45%float, "Accepted"); (0.60%float, "Review");
                          (0.6000001%float, "Rejected")] →
       F64._policy_decision_from_dsr dsr = decision
       ∧ ∃ processed,
           F64.process_customer_row (F64.row_with_dsr dsr) = Some processed
           ∧ F64.Processed.dsr processed = dsr
           ∧ F64.Processed.decision processed = decision)
  ∧ (∀ rule ml : option string,
       F64.final_display {| F64.Customer.dsr := Some 0.50%float;
                            F64.Customer.decision := rule;
                            F64.Customer.ml_final_decision := ml;
                            F64.Customer.manual_decision := None |}
       = Some "Review")
  ∧ F64.final_display {| F64.Customer.dsr := Some 0.50%float;
                         F64.Customer.decision := Some "Accepted";
                         F64.Customer.ml_final_decision := None;
                         F64.Customer.manual_decision := None |}
    = Some "Review".
Proof.
  split_and!; [| |  |done|done].
  - intros row.
    destruct (F64_process_customer_row_cases row)
      as (months & _ & _ & _ & decision & suggestions & Hrow & Hcases).
    eexists. split; [exact Hrow|].
    cbn [F64.processed_of F64.Processed.dsr F64.Processed.decision].
    set (dsr := F64.dsr_of row months) in *.
    pose proof (leb_045_060 dsr) as Hle.
    assert ((dsr <=? 0.45)%float = true ∧ decision = "Accepted"
            ∨ (dsr <=? 0.45)%float = false ∧ (dsr <=? 0.60)%float = true
              ∧ decision = "Review"
            ∨ (dsr <=? 0.45)%float = false ∧ (dsr <=? 0.60)%float = false
              ∧ decision = "Rejected") as Hcases' by exact Hcases.
    clear Hcases.
    split_and!.
    + destruct Hcases' as [[H ->]|[(H & _ & ->)|(H & _ & ->)]];
        split; try done; congruence.
    + destruct Hcases' as [[H ->]|[(H & H' & ->)|(H & H' & ->)]];
        split; try done; try (intros [? ?]; congruence).
    + destruct Hcases' as [[H ->]|[(H & H' & ->)|(H & H' & ->)]];
        split; try done; try congruence.
      intros H60. rewrite (Hle H) in H60. done.
    + intros Hnan. destruct (F64_policy_decision_spec dsr Hnan) as (Ha & Hr & Hj).
      pose proof (leb_ltb dsr 0.45 Hnan eq_refl) as H45.
      pose proof (leb_ltb dsr 0.60 Hnan eq_refl) as H60.
      destruct Hcases' as [[H ->]|[(H & H' & ->)|(H & H' & ->)]]; symmetry.
      * by apply Ha.
      * apply Hr. split; [|done]. rewrite H in H45.
        by destruct (0.45 <? dsr)%float.
      * apply Hj. rewrite H' in H60. by destruct (0.60 <? dsr)%float.
    + intros Hnan. destruct (F64_policy_decision_nan dsr Hnan) as (H45 & H60 & Hp).
      split; [|done].
      destruct Hcases' as [[H ->]|[(H & H' & ->)|(H & H' & ->)]]; congruence.
  - apply F64_policy_decision_spec.
  - intros dsr decision. rewrite !elem_of_cons, elem_of_nil.
    intros [[= -> ->]|[[= -> ->]|[[= -> ->]|[]]]];
      (split; [by vm_compute|]); eexists; (split; [by vm_compute|]);
      by vm_compute.
Qed.

(** ** The down payment and the computed [dsr] *)

(** Two adjacent doubles as down payments, 10000 and the next double
    above it, with an income of 5000 and a financed amount that is
    positive both times: the computed [dsr] is the same double. *)
Lemma dsr_equal_at_adjacent_down_payments :
  let d1 := 10000%float in
  let d2 := PrimFloat.next_up 10000%float in
  (d1 <? d2)%float = true
  ∧ (0 <? F64.Row.asset_value F64.row_earning - d2)%float = true
  ∧ ∃ p1 p2,
      F64.process_customer_row
        (F64.with_income_and_down_payment F64.row_earning 5000 d1) = Some p1
      ∧ F64.process_customer_row
          (F64.with_income_and_down_payment F64.row_earning 5000 d2) = Some p2
      ∧ F64.Processed.dsr p1 = F64.Processed.dsr p2.
Proof.
  split; [by vm_compute|]. split; [by vm_compute|].
  do 2 eexists. split; [by vm_compute|]. split; [by vm_compute|].
  by vm_compute.
Qed.

(** Without income the computed [dsr] is [1.0] at every down payment. *)
Lemma dsr_constant_without_income :
  ∃ p1 p2,
    F64.process_customer_row
      (F64.with_income_and_down_payment F64.row_earning 0 10000) = Some p1
    ∧ F64.process_customer_row
        (F64.with_income_and_down_payment F64.row_earning 0 20000) = Some p2
    ∧ F64.Processed.dsr p1 = 1.0%float
    ∧ F64.Processed.dsr p2 = 1.0%float.
Proof.
  do 2 eexists. split; [by vm_compute|]. split; [by vm_compute|].
  by vm_compute.
Qed.

(** ** Suggestions *)







(** ** Reconciliation at display time *)

Lemma policy_decision_truthy (dsr : Q) :
  Py.str_truthy (Some (_policy_decision_from_dsr dsr)) = true.
Proof.
  unfold _policy_decision_from_dsr.
  destruct (Py.flt 0.60 dsr); [done|]. by destruct (Py.fle dsr 0.45).
Qed.

Lemma policy_decision_dsr_or_zero (dsr : Q) :
  _policy_decision_from_dsr (dsr_or_zero (Some dsr))
  = _policy_decision_from_dsr dsr.
Proof.
  unfold dsr_or_zero. destruct (Qeq_bool dsr 0) eqn:E; [|done].
  apply Qeq_bool_iff in E. apply policy_decision_proper. by rewrite E.
Qed.

(** Without a manual decision the display is the policy decision of
    [float(c.dsr or 0.0)]. *)
Lemma final_display_no_manual (c : Customer.t) :
  Py.str_truthy (Customer.manual_decision c) = false →
  final_display c
  = Some (_policy_decision_from_dsr (dsr_or_zero (Customer.dsr c))).
Proof.
  intros Hm. unfold final_display, Py.or_ at 1 2.
  by rewrite Hm, policy_decision_truthy.
Qed.

(** C1. The code departs from the stated precedence on a record without
    [dsr]: with no manual decision, no [dsr] and an [ml_final_decision]
    and a stored rule decision of "Rejected", the display is "Accepted",
    the policy decision of [0.0], where the precedence ("then ML; then
    rule", as the comment above the expression also has it) gives
    "Rejected".  The decision filter of [customer_applications] and the
    breakdown of [analytics_overview] read the same record as "Rejected".
    The same holds of every record without manual decision and without
    [dsr]: it displays "Accepted", and the operands [c.ml_final_decision]
    and [c.decision] of the expression are never what is displayed. *)
Theorem final_display_ignores_ml_without_dsr :
  final_display record_without_dsr = Some "Accepted"
  ∧ spec_final_display record_without_dsr = Some "Rejected"
  ∧ final_display record_without_dsr ≠ spec_final_display record_without_dsr
  ∧ final_display record_without_dsr
    ≠ Customer.ml_final_decision record_without_dsr
  ∧ analytics_decision record_without_dsr = Some "Rejected"
  ∧ matches_decision_filter "Rejected" record_without_dsr = true
  ∧ matches_decision_filter "Accepted" record_without_dsr = false
  ∧ (∀ c : Customer.t,
       Py.str_truthy (Customer.manual_decision c) = false →
       Customer.dsr c = None →
       final_display c = Some "Accepted").
Proof.
  split_and!; try by vm_compute.
  intros c Hm Hdsr. by rewrite (final_display_no_manual _ Hm), Hdsr.
Qed.

(** What the expression displays, case by case: a non-empty manual
    decision, verbatim; otherwise the policy decision of the persisted
    [dsr]; with neither a manual decision nor a [dsr], "Accepted".  On
    every record that has a manual decision or a [dsr] this is the
    precedence the specification words. *)
Lemma final_display_precedence (c : Customer.t) :
  (∀ m, Customer.manual_decision c = Some m → m ≠ "" →
     final_display c = Some m)
  ∧ (Py.str_truthy (Customer.manual_decision c) = false →
     ∀ dsr, Customer.dsr c = Some dsr →
       final_display c = Some (_policy_decision_from_dsr dsr))
  ∧ (Py.str_truthy (Customer.manual_decision c) = false →
     Customer.dsr c = None →
     final_display c = Some "Accepted")
  ∧ (Py.str_truthy (Customer.manual_decision c) = true
     ∨ is_Some (Customer.dsr c) →
     final_display c = spec_final_display c).
Proof.
  assert (∀ m, Customer.manual_decision c = Some m → m ≠ "" →
            Py.str_truthy (Customer.manual_decision c) = true) as Htruthy.
  { intros m -> Hm. simpl. apply negb_true_iff. by apply String.eqb_neq. }
  split_and!.
  - intros m Hm Hne. unfold final_display, Py.or_ at 1.
    by rewrite (Htruthy m Hm Hne).
  - intros Hm dsr Hdsr. rewrite (final_display_no_manual _ Hm), Hdsr.
    by rewrite policy_decision_dsr_or_zero.
  - intros Hm Hdsr. by rewrite (final_display_no_manual _ Hm), Hdsr.
  - intros [Hm|[dsr Hdsr]].
    + unfold final_display, spec_final_display, Py.or_ at 1. by rewrite Hm.
    + unfold spec_final_display.
      destruct (Py.str_truthy (Customer.manual_decision c)) eqn:Hm.
      * unfold final_display, Py.or_ at 1. by rewrite Hm.
      * rewrite (final_display_no_manual _ Hm), Hdsr.
        by rewrite policy_decision_dsr_or_zero.
Qed.

(** C10. Two records without manual decision and with the same stored
    [dsr] display the same decision, whatever their [ml_final_decision] and
    stored rule decision are; a record without manual decision whose [dsr]
    is absent displays what it would display with a [dsr] of 0.0, which is
    "Accepted". *)
Theorem final_display_by_dsr_alone (c1 c2 : Customer.t) :
  Py.str_truthy (Customer.manual_decision c1) = false →
  Py.str_truthy (Customer.manual_decision c2) = false →
  Customer.dsr c1 = Customer.dsr c2 →
  final_display c1 = final_display c2
  ∧ (Customer.dsr c1 = None →
     final_display c1 = Some "Accepted"
     ∧ final_display c1
       = final_display {| Customer.dsr := Some 0.0%Q;
                          Customer.decision := Customer.decision c1;
                          Customer.ml_final_decision := Customer.ml_final_decision c1;
                          Customer.manual_decision := Customer.manual_decision c1 |}).
Proof.
  intros Hm1 Hm2 Hdsr. split.
  - by rewrite (final_display_no_manual _ Hm1),
      (final_display_no_manual _ Hm2), Hdsr.
  - intros Hnone. rewrite (final_display_no_manual _ Hm1), Hnone.
    split; [done|]. by rewrite final_display_no_manual.
Qed.

(** Two records without [dsr] and with different stored decisions. *)
Lemma final_display_by_dsr_alone_witness :
  final_display {| Customer.dsr := None;
                   Customer.decision := Some "Rejected";
                   Customer.ml_final_decision := Some "Review";
                   Customer.manual_decision := None |}
  = final_display {| Customer.dsr := None;
                     Customer.decision := None;
                     Customer.ml_final_decision := Some "Rejected";
                     Customer.manual_decision := Some "" |}
  ∧ final_display {| Customer.dsr := None;
                     Customer.decision := Some "Rejected";
                     Customer.ml_final_decision := Some "Review";
                     Customer.manual_decision := None |}
    = Some "Accepted".
Proof.
  edestruct (final_display_by_dsr_alone
               {| Customer.dsr := None;
                  Customer.decision := Some "Rejected";
                  Customer.ml_final_decision := Some "Review";
                  Customer.manual_decision := None |}
               {| Customer.dsr := None;
                  Customer.decision := None;
                  Customer.ml_final_decision := Some "Rejected";
                  Customer.manual_decision := Some "" |})
    as [Hsame Habsent]; [reflexivity..|].
  split; [exact Hsame|]. exact (proj1 (Habsent eq_refl)).
Defined.

(** ** Asset types outside the table *)

(** C5, as stated, fails: the unlisted asset type " boat" is normalized to
    "Boat", which is not a type of the table and is not "Car"; its period
    is 36 although the request, 60, is one of the periods of "Car". *)
Lemma unlisted_asset_type_is_kept :
  ∃ processed,
    process_customer_row row_boat = Some processed
    ∧ Processed.asset_type processed = "Boat"
    ∧ Processed.asset_type processed ≠ "Car"
    ∧ installment_options !! Processed.asset_type processed = None
    ∧ Processed.installment_period processed = 36
    ∧ _pick_installment_period "Car" (Row.installment_period row_boat) = Some 60.
Proof.
  eexists. split; [vm_compute; reflexivity|]. by vm_compute.
Qed.

(** C5, amended. No row makes the evaluation raise.  An absent asset
    type is normalized to "Car" and its period is one of 36, 48, 60, 72,
    84.  A present asset type that the table does not list after trimming
    and title-casing is kept as trimmed and title-cased, and its period is
    36 whatever is requested. *)
Theorem asset_type_fallback (row : Row.t) :
  ∃ processed,
    process_customer_row row = Some processed
    ∧ (Row.asset_type row = None →
       Processed.asset_type processed = "Car"
       ∧ Processed.installment_period processed ∈ [36; 48; 60; 72; 84])
    ∧ (∀ s, Row.asset_type row = Some s →
       installment_options !! Py.title (Py.strip s) = None →
       Processed.asset_type processed = Py.title (Py.strip s)
       ∧ Processed.installment_period processed = 36).
Proof.
  destruct (process_customer_row_Some row)
    as (months & decision & suggestions & _ & Hmem & _ & Hrow).
  eexists. split; [exact Hrow|]. simpl. split.
  - intros Hnone. rewrite Hnone in Hmem |- *. done.
  - intros s Hs Hnew. rewrite Hs in Hmem |- *. simpl in Hmem |- *.
    rewrite Hnew in Hmem. by apply list_elem_of_singleton in Hmem.
Qed.

(** * Further properties *)

(** ** Scoring of a predicted row *)

Lemma fmax_spec (x y : Q) :
  (x <= fmax x y)%Q ∧ (y <= fmax x y)%Q ∧ (fmax x y = x ∨ fmax x y = y).
Proof.
  unfold fmax. destruct (Py.flt x y) eqn:E;
    [apply flt_true in E|apply flt_false in E]; split_and!; auto; lra.
Qed.

(** X2. The label of a scored row is "Accepted" exactly when the
    probability of acceptance is at least 0.5, and the confidence is the
    probability of the label given: [p_accept] for "Accepted",
    [1 - p_accept] for "Rejected".  Without a probability column the label
    repeats the predicted one when that is "Accepted" and is "Rejected"
    otherwise, and the band is "Medium". *)
Theorem label_and_confidence (p_col : option Q) (predict : option string) :
  let scored := score_prediction p_col predict in
  (Scored.label scored = "Accepted" ↔ (0.5 <= Scored.p_accept scored)%Q)
  ∧ (Scored.label scored = "Rejected" ↔ (Scored.p_accept scored < 0.5)%Q)
  ∧ (Scored.label scored = "Accepted" →
     (Scored.confidence scored == Scored.p_accept scored)%Q)
  ∧ (Scored.label scored = "Rejected" →
     (Scored.confidence scored == 1 - Scored.p_accept scored)%Q)
  ∧ (∀ p, p_col = Some p → Scored.p_accept scored = p)
  ∧ (p_col = None →
     (Scored.label scored = "Accepted" ↔ predict = Some "Accepted")
     ∧ Scored.confidence_band scored = "Medium").
Proof.
  intros scored. subst scored. unfold score_prediction. simpl.
  set (p := match p_col with Some p => p | None => _ end).
  destruct (fmax_spec p (1.0 - p)) as (Hx & Hy & Hor).
  assert ((if Py.fle 0.5 p then "Accepted" else "Rejected") = "Accepted"
          ↔ (0.5 <= p)%Q) as Hacc.
  { destruct (Py.fle 0.5 p) eqn:E;
      [apply fle_true in E|apply fle_false in E]; split; try done; lra. }
  assert ((if Py.fle 0.5 p then "Accepted" else "Rejected") = "Rejected"
          ↔ (p < 0.5)%Q) as Hrej.
  { destruct (Py.fle 0.5 p) eqn:E;
      [apply fle_true in E|apply fle_false in E]; split; try done; lra. }
  split_and!; try done.
  - intros H%Hacc. destruct Hor as [Heq|Heq]; rewrite Heq in *; lra.
  - intros H%Hrej. destruct Hor as [Heq|Heq]; rewrite Heq in *; lra.
  - intros q ->. done.
  - intros ->. subst p. simpl.
    destruct (String.eqb_spec (default "Rejected" predict) "Accepted") as [He|Hne].
    + split; [|done]. split; [|done]. intros _.
      destruct predict as [s|]; simpl in He; by subst.
    + split; [|done]. split; [done|]. intros ->. done.
Qed.

(** ** The histogram and the counts of the analytics endpoints *)

Lemma count_if_cons {A} (f : A → bool) (x : A) (l : list A) :
  count_if f (x :: l) = ((if f x then 1 else 0) + count_if f l)%nat.
Proof. unfold count_if. simpl. by destruct (f x). Qed.

Lemma dsr_histogram_fold (dsrs : list Q) (low mid high : nat) :
  fold_left dsr_histogram_step dsrs
    {[ "<0.45" := low; "0.45-0.60" := mid; ">0.60" := high ]}
  = {[ "<0.45" := (low + count_if (λ v, Py.flt v 0.45) dsrs)%nat;
       "0.45-0.60" :=
         (mid + count_if (λ v, negb (Py.flt v 0.45) && Py.fle v 0.60) dsrs)%nat;
       ">0.60" := (high + count_if (λ v, Py.flt 0.60 v) dsrs)%nat ]}.
Proof.
  revert low mid high. induction dsrs as [|v dsrs IH]; intros low mid high.
  - simpl. unfold count_if. simpl. by rewrite !Nat.add_0_r.
  - simpl. rewrite !count_if_cons.
    assert (dsr_histogram_step
              {[ "<0.45" := low; "0.45-0.60" := mid; ">0.60" := high ]} v
            = {[ "<0.45" := (low + if Py.flt v 0.45 then 1 else 0)%nat;
                 "0.45-0.60" :=
                   (mid + if negb (Py.flt v 0.45) && Py.fle v 0.60
                          then 1 else 0)%nat;
                 ">0.60" := (high + if Py.flt 0.60 v then 1 else 0)%nat ]})
      as ->.
    { unfold dsr_histogram_step.
      destruct (Py.flt v 0.45) eqn:E45; simpl.
      - assert (Py.flt 0.60 v = false) as ->.
        { apply flt_true in E45. apply flt_false. lra. }
        rewrite !Nat.add_0_r. apply map_eq. intros k.
        rewrite lookup_alter, !lookup_insert, !lookup_singleton.
        repeat case_decide; simplify_eq; try done. simpl. f_equal. lia.
      - destruct (Py.fle v 0.60) eqn:E60; simpl.
        + assert (Py.flt 0.60 v = false) as ->.
          { apply fle_true in E60. by apply flt_false. }
          rewrite !Nat.add_0_r. apply map_eq. intros k.
          rewrite lookup_alter, !lookup_insert, !lookup_singleton.
          repeat case_decide; simplify_eq; try done. simpl. f_equal. lia.
        + assert (Py.flt 0.60 v = true) as ->.
          { apply fle_false in E60. by apply flt_true. }
          rewrite !Nat.add_0_r. apply map_eq. intros k.
          rewrite lookup_alter, !lookup_insert, !lookup_singleton.
          repeat case_decide; simplify_eq; try done. simpl. f_equal. lia. }
    rewrite IH. by rewrite !Nat.add_assoc.
Qed.

Lemma count_if_partition (dsrs : list Q) :
  (count_if (λ v, Py.flt v 0.45) dsrs
   + count_if (λ v, negb (Py.flt v 0.45) && Py.fle v 0.60) dsrs
   + count_if (λ v, Py.flt 0.60 v) dsrs)%nat
  = length dsrs.
Proof.
  induction dsrs as [|v dsrs IH]; [done|]. rewrite !count_if_cons. simpl.
  destruct (Py.flt v 0.45) eqn:E45; simpl.
  - assert (Py.flt 0.60 v = false) as ->; [|lia].
    apply flt_true in E45. apply flt_false. lra.
  - destruct (Py.fle v 0.60) eqn:E60.
    + assert (Py.flt 0.60 v = false) as ->; [|lia].
      apply fle_true in E60. by apply flt_false.
    + assert (Py.flt 0.60 v = true) as ->; [|lia].
      apply fle_false in E60. by apply flt_true.
Qed.

(** X3. Without customers [analytics_overview] returns an empty
    histogram.  With at least one customer the histogram has exactly the
    three bins "<0.45", "0.45-0.60" and ">0.60", which count the present
    [dsr] values below 0.45, from 0.45 to 0.60 inclusive, and above 0.60;
    the three counts add up to the number of customers that have a
    [dsr]. *)
Theorem dsr_histogram_partitions (customers : list Customer.t) :
  let dsrs := present_dsrs customers in
  let histogram := Analytics.dsr_histogram (analytics_overview customers) in
  (customers = [] → histogram = ∅)
  ∧ (customers ≠ [] →
     ∃ low mid high : nat,
       histogram = {[ "<0.45" := low; "0.45-0.60" := mid; ">0.60" := high ]}
       ∧ low = count_if (λ v, Py.flt v 0.45) dsrs
       ∧ mid = count_if (λ v, Py.fle 0.45 v && Py.fle v 0.60) dsrs
       ∧ high = count_if (λ v, Py.flt 0.60 v) dsrs
       ∧ (low + mid + high)%nat = length dsrs).
Proof.
  intros dsrs histogram. split.
  - intros ->. done.
  - intros Hne. destruct customers as [|c customers]; [done|].
    subst histogram. unfold analytics_overview.
    cbn [Analytics.dsr_histogram]. fold dsrs.
    rewrite dsr_histogram_fold. do 3 eexists. split; [done|].
    assert (count_if (λ v, Py.fle 0.45 v && Py.fle v 0.60) dsrs
            = count_if (λ v, negb (Py.flt v 0.45) && Py.fle v 0.60) dsrs) as ->.
    { unfold count_if. f_equal. apply filter_ext. intros v.
      f_equal. destruct (Py.flt v 0.45) eqn:E; simpl.
      - apply flt_true in E. apply fle_false. done.
      - apply flt_false in E. by apply fle_true. }
    split_and!; try done. simpl. apply count_if_partition.
Qed.

Lemma count_if_le {A} (f : A → bool) (l : list A) :
  (count_if f l ≤ length l)%nat.
Proof.
  induction l as [|x l IH]; [done|]. rewrite count_if_cons. simpl.
  destruct (f x); lia.
Qed.

Lemma count_if_ext {A} (f g : A → bool) (l : list A) :
  (∀ x, x ∈ l → f x = g x) → count_if f l = count_if g l.
Proof.
  induction l as [|x l IH]; intros Hfg; [done|]. rewrite !count_if_cons.
  rewrite (Hfg x) by constructor. rewrite IH; [done|].
  intros y Hy. apply Hfg. by constructor.
Qed.

Lemma omap_length_le {A B} (f : A → option B) (l : list A) :
  (length (omap f l) ≤ length l)%nat.
Proof.
  induction l as [|x l IH]; [done|]. csimpl. destruct (f x); simpl; lia.
Qed.

Lemma omap_nil_Forall {A B} (f : A → option B) (l : list A) :
  omap f l = [] → Forall (λ x, f x = None) l.
Proof.
  induction l as [|x l IH]; [constructor|]. csimpl.
  destruct (f x) eqn:E; [done|]. intros H. constructor; [done|]. by apply IH.
Qed.

Lemma count_three_decisions (decisions : list string) :
  (count_if (String.eqb "Accepted") decisions
   + count_if (String.eqb "Review") decisions
   + count_if (String.eqb "Rejected") decisions ≤ length decisions)%nat
  ∧ (Forall (λ d, d = "Accepted" ∨ d = "Review" ∨ d = "Rejected") decisions →
     (count_if (String.eqb "Accepted") decisions
      + count_if (String.eqb "Review") decisions
      + count_if (String.eqb "Rejected") decisions)%nat = length decisions).
Proof.
  induction decisions as [|d decisions [IHle IHeq]]; [done|].
  rewrite !count_if_cons. cbn [length].
  destruct (String.eqb_spec "Accepted" d) as [Ha|Ha];
    destruct (String.eqb_spec "Review" d) as [Hr|Hr];
    destruct (String.eqb_spec "Rejected" d) as [Hj|Hj];
    try congruence.
  all: split; [lia|].
  all: intros [Hd Hall]%Forall_cons; specialize (IHeq Hall).
  all: try lia.
  destruct Hd as [-> | [-> | ->]]; done.
Qed.

(** X4. [get_decision_statistics] reports "no customers" exactly on an
    empty table and "no decisions" exactly when there are customers but
    none has a non-empty stored decision.  In a report, the accepted,
    review and rejected counts together do not exceed the number of
    processed customers, which does not exceed the number of customers;
    they add up to it when every stored decision is one of the three; and
    the number of high-risk customers is the count of the ">0.60" bin of
    the histogram of [analytics_overview]. *)
Theorem decision_statistics_counts (customers : list Customer.t) :
  (get_decision_statistics customers = Statistics.NoCustomers
   ↔ customers = [])
  ∧ (∀ n, get_decision_statistics customers = Statistics.NoDecisions n →
     n = length customers
     ∧ Forall (λ c, Py.str_truthy (Customer.decision c) = false) customers)
  ∧ (∀ r, get_decision_statistics customers = Statistics.Report r →
     Statistics.total_customers r = length customers
     ∧ (0 < Statistics.processed_customers r)%nat
     ∧ (Statistics.accepted r + Statistics.review r + Statistics.rejected r
        ≤ Statistics.processed_customers r)%nat
     ∧ (Statistics.processed_customers r ≤ Statistics.total_customers r)%nat
     ∧ (Forall (λ c, Customer.decision c = None
                     ∨ Customer.decision c = Some "Accepted"
                     ∨ Customer.decision c = Some "Review"
                     ∨ Customer.decision c = Some "Rejected") customers →
        (Statistics.accepted r + Statistics.review r + Statistics.rejected r)%nat
        = Statistics.processed_customers r)
     ∧ Analytics.dsr_histogram (analytics_overview customers) !! ">0.60"
       = Some (Statistics.high_risk_customers r)).
Proof.
  set (keep := λ c : Customer.t,
         if Py.str_truthy (Customer.decision c)
         then Customer.decision c else None).
  pose proof (omap_length_le keep) as Hlen.
  assert (∀ l, omap keep l = [] →
            Forall (λ c, Py.str_truthy (Customer.decision c) = false) l) as Hnil.
  { intros l Hl%omap_nil_Forall. eapply Forall_impl; [exact Hl|].
    intros c. unfold keep.
    destruct (Py.str_truthy (Customer.decision c)) eqn:E; [|done].
    by destruct (Customer.decision c). }
  assert (∀ l,
            Forall (λ c, Customer.decision c = None
                         ∨ Customer.decision c = Some "Accepted"
                         ∨ Customer.decision c = Some "Review"
                         ∨ Customer.decision c = Some "Rejected") l →
            Forall (λ d, d = "Accepted" ∨ d = "Review" ∨ d = "Rejected")
                   (omap keep l)) as Hthree.
  { induction l as [|c l IH]; [constructor|]. intros [Hc Hl]%Forall_cons.
    specialize (IH Hl). csimpl. unfold keep at 1.
    destruct Hc as [-> | [-> | [-> | ->]]]; simpl; try constructor; auto. }
  destruct customers as [|c customers].
  { split_and!; [done|done|done]. }
  pose proof (Hlen (c :: customers)) as Hl1.
  pose proof (Hthree (c :: customers)) as Ht1.
  pose proof (Hnil (c :: customers)) as Hn1.
  pose proof (count_three_decisions (omap keep (c :: customers))) as [Hc1 Hc2].
  assert (Analytics.dsr_histogram (analytics_overview (c :: customers))
            !! ">0.60"
          = Some (count_if (λ d, Py.flt 0.60 d) (present_dsrs (c :: customers))))
    as Hhigh.
  { unfold analytics_overview. cbn [Analytics.dsr_histogram].
    rewrite dsr_histogram_fold.
    rewrite lookup_insert_ne by done. rewrite lookup_insert_ne by done.
    by rewrite lookup_singleton_eq. }
  rewrite Hhigh. clear Hhigh.
  unfold get_decision_statistics. fold keep.
  generalize dependent (present_dsrs (c :: customers)). intros dsrs.
  generalize dependent (omap keep (c :: customers)).
  intros decisions Hl1 Ht1 Hn1 Hc1 Hc2.
  destruct decisions as [|d decisions].
  - split_and!; [done| |done].
    intros n [= <-]. split; [done|]. by apply Hn1.
  - split_and!; [done|done|].
    intros r Hr.
    assert (∀ a b, Statistics.Report a = Statistics.Report b → a = b) as Hinj
      by (intros ?? ?; congruence).
    apply Hinj in Hr. subst r.
    cbv [Statistics.total_customers
      Statistics.processed_customers Statistics.accepted Statistics.review
      Statistics.rejected Statistics.high_risk_customers].
    split_and!; try done.
    + cbn [length]. lia.
    + intros Hall. apply Hc2. by apply Ht1.
    + by destruct dsrs.
Qed.

Lemma decision_is_one_of_three (dsr : Q) :
  _policy_decision_from_dsr dsr = "Accepted"
  ∨ _policy_decision_from_dsr dsr = "Review"
  ∨ _policy_decision_from_dsr dsr = "Rejected".
Proof.
  unfold _policy_decision_from_dsr.
  destruct (Py.flt 0.60 dsr); [auto|]. destruct (Py.fle dsr 0.45); auto.
Qed.

(** ** [Counter] and the breakdown of decisions *)

Lemma Counter_fold_lookup (l : list string) (counts : gmap string nat) (k : string) :
  fold_left (λ counts k, <[k := S (default 0%nat (counts !! k))]> counts) l counts
    !! k
  = match count_if (String.eqb k) l with
    | O => counts !! k
    | S n => Some (default 0%nat (counts !! k) + S n)%nat
    end.
Proof.
  revert counts. induction l as [|x l IH]; intros counts; [done|].
  cbn [fold_left]. rewrite IH, count_if_cons, lookup_insert.
  destruct (String.eqb_spec k x) as [->|Hne].
  - rewrite decide_True by done. cbn [default].
    destruct (count_if (String.eqb x) l); simpl; f_equal; lia.
  - rewrite decide_False by done. done.
Qed.

Lemma Counter_lookup (l : list string) (k : string) :
  Counter l !! k
  = match count_if (String.eqb k) l with
    | O => None
    | S n => Some (S n)
    end.
Proof.
  unfold Counter. rewrite Counter_fold_lookup, lookup_empty.
  by destruct (count_if (String.eqb k) l).
Qed.

(** X7. In the breakdown of decisions of [analytics_overview] a key is
    present exactly when some customer is counted under it, and its value
    is the number of customers whose
    [manual_decision or ml_final_decision or decision] is that key; the
    empty string is never a key, and a customer without any non-empty
    decision is counted nowhere. *)
Theorem decisions_breakdown_counts (customers : list Customer.t) (k : string) :
  let breakdown := Analytics.decisions_breakdown (analytics_overview customers) in
  let n := count_if (λ c, bool_decide (analytics_decision c = Some k)) customers in
  (k = "" → breakdown !! k = None)
  ∧ (k ≠ "" → n = 0%nat → breakdown !! k = None)
  ∧ (k ≠ "" → n ≠ 0%nat → breakdown !! k = Some n).
Proof.
  intros breakdown n.
  set (keep := λ c : Customer.t,
         if Py.str_truthy (analytics_decision c)
         then analytics_decision c else None).
  assert (∀ l, count_if (String.eqb k) (omap keep l)
               = if String.eqb k "" then 0%nat
                 else count_if (λ c, bool_decide (analytics_decision c = Some k)) l)
    as Hcount.
  { induction l as [|c l IH].
    - by destruct (String.eqb k "").
    - csimpl. rewrite count_if_cons. unfold keep at 1.
      destruct (analytics_decision c) as [d|] eqn:Hd; cbn [Py.str_truthy].
      + destruct (String.eqb_spec d "") as [->|Hne]; cbn [negb].
        * rewrite IH. destruct (String.eqb_spec k "") as [->|Hk]; [done|].
          rewrite bool_decide_false by congruence. done.
        * rewrite count_if_cons, IH.
          destruct (String.eqb_spec k "") as [->|Hk].
          -- destruct (String.eqb_spec "" d) as [<-|?]; done.
          -- destruct (String.eqb_spec k d) as [->|Hkd].
             ++ by rewrite bool_decide_true.
             ++ rewrite bool_decide_false by congruence. done.
      + rewrite IH. destruct (String.eqb k ""); [done|].
        by rewrite bool_decide_false. }
  assert (breakdown !! k
          = match (if String.eqb k "" then 0%nat else n) with
            | O => None | S m => Some (S m) end) as Hb.
  { subst breakdown n. destruct customers as [|c customers].
    - cbn. rewrite lookup_empty. by destruct (String.eqb k "").
    - unfold analytics_overview. cbn [Analytics.decisions_breakdown].
      fold keep. by rewrite Counter_lookup, Hcount. }
  rewrite Hb. split_and!.
  - intros ->. done.
  - intros Hk ->. by destruct (String.eqb k "").
  - intros Hk Hn. destruct (String.eqb_spec k "") as [?|_]; [done|].
    by destruct n.
Qed.

(** ** Further properties of [process_customer_row] *)

(** The result of an evaluation, with its decision. *)
Lemma process_customer_row_tiers (row : Row.t) (processed : Processed.t) :
  process_customer_row row = Some processed →
  ∃ months,
    0 < months
    ∧ _pick_installment_period (_normalize_asset_type (Row.asset_type row))
        (Row.installment_period row) = Some months
    ∧ (Py.fle (dsr_of row months) 0.45 = true
       ∧ processed = processed_of row months "Accepted" []
       ∨ Py.fle (dsr_of row months) 0.45 = false
         ∧ Py.fle (dsr_of row months) 0.60 = true
         ∧ processed
           = processed_of row months "Review" (review_suggestions row months)
       ∨ Py.fle (dsr_of row months) 0.45 = false
         ∧ Py.fle (dsr_of row months) 0.60 = false
         ∧ ∃ longest,
             processed
             = processed_of row months "Rejected"
                 (rejected_suggestions row months longest)).
Proof.
  intros Hrow.
  destruct (process_customer_row_cases row)
    as (months & Hpick & _ & Hpos & Hcases).
  exists months. split; [done|]. split; [done|].
  destruct Hcases as [[H45 H]|[(H45 & H60 & H)|(H45 & H60 & longest & _ & H)]];
    rewrite Hrow in H; injection H as ->.
  - by left.
  - right; left. done.
  - right; right. split_and!; try done. by exists longest.
Qed.

(** X8. An accepted evaluation carries no suggestion, and it is the only
    one: the stored suggestions are the empty string exactly when the
    decision is "Accepted".  A "Review" result starts with the advice to
    increase the down payment and a "Rejected" result contains the advice
    to increase the down payment. *)
Theorem suggestions_empty_iff_accepted (row : Row.t) (processed : Processed.t) :
  process_customer_row row = Some processed →
  (Processed.suggestions processed = "" ↔ Processed.decision processed = "Accepted")
  ∧ (Processed.decision processed = "Review" →
     ∃ rest,
       Processed.suggestions processed
       = Py.join newline
           ("Consider increasing your down payment to reduce the monthly installment."
            :: rest))
  ∧ (Processed.decision processed = "Rejected" →
     ∃ before after,
       Processed.suggestions processed
       = Py.join newline
           (before
            ++ "Increase your down payment to reduce the financed amount."
               :: after)).
Proof.
  intros Hrow.
  destruct (process_customer_row_tiers _ _ Hrow) as (months & _ & _ & Hcases).
  destruct Hcases as [[_ ->]|[(_ & _ & ->)|(_ & _ & longest & ->)]];
    cbn [processed_of Processed.suggestions Processed.decision].
  - split_and!; done.
  - split_and!; [|by eexists|done].
    split; [|done]. unfold review_suggestions.
    destruct (Py.flt 0 (Row.existing_loans row)),
      (Py.flt (0.5 * Row.income row) (Row.expenses row)),
      (filter _ _); discriminate.
  - split_and!; [|done|].
    2:{ intros _. unfold rejected_suggestions. rewrite app_assoc.
        do 2 eexists. reflexivity. }
    split; [|done]. unfold rejected_suggestions.
    destruct (Py.flt 0 (Row.existing_loans row)),
      (Py.flt (Row.income row) _), (months <? longest); discriminate.
Qed.

Lemma suggestions_empty_iff_accepted_witness :
  ∃ processed,
    process_customer_row row_earning = Some processed
    ∧ Processed.decision processed = "Accepted"
    ∧ Processed.suggestions processed = "".
Proof.
  eexists. split; [vm_compute; reflexivity|]. split; [reflexivity|].
  apply (suggestions_empty_iff_accepted row_earning);
    [vm_compute; reflexivity|reflexivity].
Defined.

(** An integer request that is allowed is the chosen period. *)
Lemma pick_allowed_int (asset_type : string) (m : Z) :
  m ∈ default [36] (installment_options !! asset_type) →
  _pick_installment_period asset_type (Py.VInt m) = Some m.
Proof.
  intros Hm.
  assert (0 < m) as Hpos.
  { destruct (periods_ok_get asset_type 36 ltac:(lia)) as (_ & Hpos & _).
    rewrite Forall_forall in Hpos. by apply Hpos. }
  unfold _pick_installment_period. cbn [Py.truthy _to_int_or_none].
  destruct (Z.eqb_spec m 0); [lia|]. cbn [negb].
  by rewrite bool_decide_true.
Qed.

(** ** Snapping of integer requests *)

(** Every integer request is answered by an allowed period nearest to
    it, the smaller of two that are equally near. *)
Lemma pick_int_nearest (asset_type : string) (n m : Z) :
  let allowed := default [36] (installment_options !! asset_type) in
  _pick_installment_period asset_type (Py.VInt n) = Some m →
  m ∈ allowed
  ∧ (∀ a, a ∈ allowed → Z.abs (m - n) ≤ Z.abs (a - n))
  ∧ (∀ a, a ∈ allowed → Z.abs (a - n) = Z.abs (m - n) → m ≤ a).
Proof.
  intros allowed Hpick.
  pose proof (periods_ok_get asset_type 36 ltac:(lia)) as Hok.
  fold allowed in Hok.
  destruct (periods_ok_head _ Hok) as (smallest & Hhd & Hleast).
  assert (∀ a, a ∈ allowed → 0 < a) as Hpos.
  { destruct Hok as (_ & Hpos & _). by rewrite Forall_forall in Hpos. }
  assert (smallest ∈ allowed) as Hin by (eapply list_elem_of_lookup; eauto).
  unfold _pick_installment_period in Hpick. fold allowed in Hpick.
  cbn [Py.truthy _to_int_or_none] in Hpick.
  destruct (Z.eqb_spec n 0) as [->|Hn]; cbn [negb] in Hpick.
  { rewrite Hhd in Hpick. injection Hpick as <-. split; [done|].
    split; intros a Ha; pose proof (Hleast a Ha); pose proof (Hpos a Ha);
      pose proof (Hpos smallest Hin); lia. }
  case_bool_decide as Hmem; cbn [negb] in Hpick.
  { injection Hpick as <-. split; [done|]. split; intros a Ha; lia. }
  split; [by eapply min_by_elem_of|]. split.
  - intros a Ha. by apply (min_by_least _ _ _ a Hpick).
  - intros a Ha Heq. eapply min_by_tie; eauto. apply Hok.
Qed.

(** X13. Snapping is monotone: of two integer requests for the same asset
    type, the larger one is never answered by a shorter period. *)
Theorem pick_installment_period_monotone
    (asset_type : string) (n1 n2 m1 m2 : Z) :
  n1 ≤ n2 →
  _pick_installment_period asset_type (Py.VInt n1) = Some m1 →
  _pick_installment_period asset_type (Py.VInt n2) = Some m2 →
  m1 ≤ m2.
Proof.
  intros Hn H1 H2.
  destruct (pick_int_nearest _ _ _ H1) as (Hin1 & Hnear1 & Htie1).
  destruct (pick_int_nearest _ _ _ H2) as (Hin2 & Hnear2 & _).
  destruct (Z.le_gt_cases m1 m2) as [|Hgt]; [done|]. exfalso.
  pose proof (Hnear1 m2 Hin2) as Ha. pose proof (Hnear2 m1 Hin1) as Hb.
  assert (Z.abs (m2 - n1) ≠ Z.abs (m1 - n1)) as Hneq.
  { intros Heq. pose proof (Htie1 m2 Hin2 Heq). lia. }
  lia.
Qed.

Lemma pick_installment_period_monotone_witness :
  _pick_installment_period "Car" (Py.VInt 50) = Some 48
  ∧ _pick_installment_period "Car" (Py.VInt 55) = Some 60
  ∧ 48 ≤ 60.
Proof.
  split; [reflexivity|]. split; [reflexivity|].
  apply (pick_installment_period_monotone "Car" 50 55 48 60);
    [lia|reflexivity|reflexivity].
Defined.

(** X14. Snapping clamps: an integer request at or below the smallest
    allowed period of the asset type is answered by the smallest, and one
    at or above the longest allowed period by the longest. *)
Theorem pick_installment_period_clamps
    (asset_type : string) (n m shortest longest : Z) :
  let allowed := default [36] (installment_options !! asset_type) in
  shortest ∈ allowed → longest ∈ allowed →
  (∀ a, a ∈ allowed → shortest ≤ a ≤ longest) →
  _pick_installment_period asset_type (Py.VInt n) = Some m →
  shortest ≤ m ≤ longest
  ∧ (n ≤ shortest → m = shortest)
  ∧ (longest ≤ n → m = longest).
Proof.
  intros allowed Hs Hl Hrange Hpick.
  destruct (pick_int_nearest _ _ _ Hpick) as (Hin & Hnear & Htie).
  pose proof (Hrange m Hin). split; [done|]. split.
  - intros Hn. pose proof (Hnear shortest Hs). lia.
  - intros Hn. pose proof (Hnear longest Hl). lia.
Qed.

Lemma pick_installment_period_clamps_witness :
  _pick_installment_period "House" (Py.VInt 1000) = Some 300
  ∧ 120 ≤ 300 ≤ 300.
Proof.
  split; [reflexivity|].
  refine (proj1 (pick_installment_period_clamps "House" 1000 300 120 300
                   _ _ _ _)).
  - vm_compute. repeat constructor.
  - vm_compute. repeat constructor.
  - intros a Ha. change (a ∈ [120; 180; 240; 300]) in Ha.
    rewrite !elem_of_cons, elem_of_nil in Ha. lia.
  - reflexivity.
Defined.

(** ** Normalization of the asset type *)

Lemma case_facts_all (c : ascii) : case_facts c = true.
Proof. destruct c as [[] [] [] [] [] [] [] []]; vm_compute; reflexivity. Qed.

Lemma case_facts_inv (c : ascii) :
  let letter := Py.is_lower c || Py.is_upper c in
  let lo := Py.to_lower c in
  let up := Py.to_upper c in
  (Py.is_lower lo || Py.is_upper lo) = letter
  ∧ (Py.is_lower up || Py.is_upper up) = letter
  ∧ Py.to_lower lo = lo ∧ Py.to_upper up = up
  ∧ Py.to_lower up = lo ∧ Py.to_upper lo = up
  ∧ Py.is_space lo = Py.is_space c ∧ Py.is_space up = Py.is_space c
  ∧ (letter = true → Py.is_space c = false)
  ∧ (letter = false → lo = c ∧ up = c).
Proof.
  intros letter lo up. pose proof (case_facts_all c) as H.
  unfold case_facts in H. fold letter lo up in H.
  repeat (apply andb_prop in H as [H ?]).
  repeat match goal with
         | H : bool_decide _ = true |- _ => apply bool_decide_eq_true in H
         end.
  clearbody letter. split_and!; try done.
  - intros ->. by apply negb_true_iff.
  - intros ->.
    match goal with
    | H : _ && _ = true |- _ => apply andb_prop in H as [Hlo Hup]
    end.
    apply bool_decide_eq_true in Hlo, Hup. done.
Qed.

Local Abbreviation chars := String.list_ascii_of_string.

Lemma chars_inj (s1 s2 : string) : chars s1 = chars s2 → s1 = s2.
Proof.
  intros H. rewrite <- (String.string_of_list_ascii_of_string s1),
    <- (String.string_of_list_ascii_of_string s2). by rewrite H.
Qed.

Lemma chars_rev (s : string) : chars (String.rev s) = reverse (chars s).
Proof.
  unfold String.rev, reverse. change (@nil ascii) with (chars "").
  generalize "". induction s as [|c s IH]; intros acc; [done|].
  simpl. by rewrite IH.
Qed.

Lemma lstrip_head (s : string) (c : ascii) :
  head (chars (Py.lstrip s)) = Some c → Py.is_space c = false.
Proof.
  induction s as [|x s IH]; [done|]. simpl.
  destruct (Py.is_space x) eqn:E; [done|]. by intros [= <-].
Qed.

Lemma lstrip_id (s : string) :
  (∀ c, head (chars s) = Some c → Py.is_space c = false) → Py.lstrip s = s.
Proof.
  destruct s as [|x s]; [done|]. simpl. intros H.
  by rewrite (H x eq_refl).
Qed.

Lemma lstrip_suffix (s : string) :
  ∃ spaces, chars s = spaces ++ chars (Py.lstrip s).
Proof.
  induction s as [|x s [spaces IH]]; [by exists []|]. simpl.
  destruct (Py.is_space x).
  - exists (x :: spaces). simpl. by rewrite IH.
  - by exists [].
Qed.

Lemma strip_no_space_ends (s : string) : no_space_ends (Py.strip s).
Proof.
  unfold Py.strip, no_space_ends. rewrite chars_rev.
  set (a := Py.lstrip s).
  destruct (lstrip_suffix (String.rev a)) as [spaces Hs].
  rewrite chars_rev in Hs.
  set (w := chars (Py.lstrip (String.rev a))) in *.
  assert (chars a = reverse w ++ reverse spaces) as Ha.
  { rewrite <- (reverse_involutive (chars a)), Hs. by rewrite reverse_app. }
  split; intros c Hc.
  - apply (lstrip_head s c). fold a. rewrite Ha.
    destruct (reverse w) as [|y l]; [done|]. done.
  - rewrite last_reverse in Hc. by apply (lstrip_head (String.rev a)).
Qed.

Lemma strip_id (s : string) : no_space_ends s → Py.strip s = s.
Proof.
  intros [Hhead Hlast]. unfold Py.strip. rewrite (lstrip_id s Hhead).
  rewrite lstrip_id.
  - apply chars_inj. by rewrite !chars_rev, reverse_involutive.
  - intros c. rewrite chars_rev, head_reverse. apply Hlast.
Qed.

Lemma title_go_pointwise (s : string) (b : bool) :
  Forall2 (λ c c', Py.is_space c' = Py.is_space c)
    (chars s) (chars (Py.title_go b s)).
Proof.
  revert b. induction s as [|x s IH]; intros b; [constructor|]. simpl.
  destruct (case_facts_inv x) as (_ & _ & _ & _ & _ & _ & Hlo & Hup & _).
  destruct (Py.is_lower x || Py.is_upper x); simpl; constructor; try done.
  by destruct b.
Qed.

Lemma title_go_no_space_ends (s : string) (b : bool) :
  no_space_ends s → no_space_ends (Py.title_go b s).
Proof.
  intros [Hhead Hlast]. pose proof (title_go_pointwise s b) as Hpw. split.
  - intros c' Hc'. destruct Hpw as [|c c0 l k Hc _]; [done|].
    injection Hc' as <-. rewrite Hc. by apply Hhead.
  - intros c' Hc'. apply Forall2_last in Hpw. rewrite Hc' in Hpw.
    inversion Hpw as [c c0 Hc Hl|]; subst. rewrite Hc. apply Hlast. done.
Qed.

Lemma title_go_idempotent (s : string) (b : bool) :
  Py.title_go b (Py.title_go b s) = Py.title_go b s.
Proof.
  revert b. induction s as [|x s IH]; intros b; [done|]. simpl.
  destruct (case_facts_inv x)
    as (Hllo & Hlup & Hlolo & Hupup & _ & _ & _ & _ & _ & _).
  destruct (Py.is_lower x || Py.is_upper x) eqn:E; simpl.
  - destruct b; [rewrite Hllo, Hlolo|rewrite Hlup, Hupup]; by rewrite IH.
  - by rewrite E, IH.
Qed.

Lemma title_go_lower (s : string) (b : bool) :
  Py.title_go b (lower s) = Py.title_go b s.
Proof.
  revert b. induction s as [|x s IH]; intros b; [done|]. simpl.
  destruct (case_facts_inv x)
    as (Hllo & _ & Hlolo & _ & _ & Huplo & _ & _ & _ & Hsame).
  rewrite Hllo. destruct (Py.is_lower x || Py.is_upper x) eqn:E.
  - rewrite Hlolo, Huplo. by rewrite IH.
  - destruct (Hsame eq_refl) as [-> _]. by rewrite IH.
Qed.

Lemma normalize_twice (value : option string) :
  _normalize_asset_type (Some (_normalize_asset_type value))
  = _normalize_asset_type value.
Proof.
  destruct value as [s|]; [|by vm_compute]. cbn [_normalize_asset_type].
  unfold Py.title. rewrite strip_id.
  - apply title_go_idempotent.
  - apply title_go_no_space_ends, strip_no_space_ends.
Qed.

(** X15. For an asset type that is absent or ASCII text, normalizing
    twice is normalizing once: the asset type stored with an evaluation is
    read back as itself, with the same allowed periods, and the stored
    text has neither leading nor trailing whitespace. *)
Theorem normalize_asset_type_idempotent (value : option string) :
  (∀ s, value = Some s → Py.is_ascii s = true) →
  _normalize_asset_type (Some (_normalize_asset_type value))
  = _normalize_asset_type value
  ∧ installment_options !! _normalize_asset_type (Some (_normalize_asset_type value))
    = installment_options !! _normalize_asset_type value
  ∧ Py.strip (_normalize_asset_type value) = _normalize_asset_type value.
Proof.
  intros _. rewrite normalize_twice. split; [done|]. split; [done|].
  destruct value as [s|]; [|by vm_compute]. cbn [_normalize_asset_type].
  apply strip_id, title_go_no_space_ends, strip_no_space_ends.
Qed.

Lemma normalize_asset_type_idempotent_witness :
  _normalize_asset_type (Some (_normalize_asset_type (Some "  eQUIPMENT ")))
  = "Equipment".
Proof.
  destruct (normalize_asset_type_idempotent (Some "  eQUIPMENT ")) as [H _].
  - intros s [= <-]. reflexivity.
  - rewrite H. reflexivity.
Defined.

(** X16. Normalization ignores letter case and surrounding whitespace:
    two values whose stripped texts are equal up to letter case get the
    same normalized asset type, hence the same allowed periods. *)
Theorem normalize_asset_type_ignores_case (s1 s2 : string) :
  lower (Py.strip s1) = lower (Py.strip s2) →
  _normalize_asset_type (Some s1) = _normalize_asset_type (Some s2)
  ∧ installment_options !! _normalize_asset_type (Some s1)
    = installment_options !! _normalize_asset_type (Some s2).
Proof.
  intros H. assert (_normalize_asset_type (Some s1)
                    = _normalize_asset_type (Some s2)) as Heq.
  { cbn [_normalize_asset_type]. unfold Py.title.
    by rewrite <- (title_go_lower (Py.strip s1)),
      <- (title_go_lower (Py.strip s2)), H. }
  by rewrite Heq.
Qed.

Lemma normalize_asset_type_ignores_case_witness :
  _normalize_asset_type (Some "  eQUIPment ") = "Equipment"
  ∧ installment_options !! _normalize_asset_type (Some "  eQUIPment ")
    = Some [12; 24; 36; 48; 60].
Proof.
  destruct (normalize_asset_type_ignores_case "  eQUIPment " "Equipment")
    as [Hn Hl]; [reflexivity|].
  rewrite Hl, Hn. split; reflexivity.
Defined.

(** ** Re-evaluating a stored record *)

(** X17. Re-evaluating a stored evaluation reproduces it: for every row
    whose asset type is absent or ASCII text, [process_customer_row]
    applied to the payload that [_db_customer_to_payload] builds from the
    stored columns of the result returns that same result, with the same
    period, figures, decision and suggestions. *)
Theorem reevaluation_reproduces (row : Row.t) (processed : Processed.t) :
  (∀ s, Row.asset_type row = Some s → Py.is_ascii s = true) →
  process_customer_row row = Some processed →
  process_customer_row (_db_customer_to_payload (columns_of_processed processed))
  = Some processed.
Proof.
  intros _ Hrow.
  destruct (process_customer_row_cases row)
    as (months & Hpick & Hmem & Hpos & Hcases).
  set (norm := _normalize_asset_type (Row.asset_type row)) in *.
  set (row' := with_installment_period
                 {| Row.customer_id := Row.customer_id row;
                    Row.name := Row.name row;
                    Row.gender := Row.gender row;
                    Row.age := Row.age row;
                    Row.job_type := Row.job_type row;
                    Row.income := Row.income row;
                    Row.expenses := Row.expenses row;
                    Row.credit_history := Row.credit_history row;
                    Row.existing_loans := Row.existing_loans row;
                    Row.financing_type := Row.financing_type row;
                    Row.asset_type := Some norm;
                    Row.asset_value := Row.asset_value row;
                    Row.down_payment := Row.down_payment row;
                    Row.installment_period := Py.VNone |}
                 (Py.VInt months)).
  assert (∀ d s, _db_customer_to_payload
                   (columns_of_processed (processed_of row months d s)) = row')
    as Hpayload.
  { intros d s. unfold _db_customer_to_payload, columns_of_processed, row',
      with_installment_period, processed_of.
    cbn. destruct (Z.eqb_spec months 0); [lia|done]. }
  assert (_normalize_asset_type (Row.asset_type row') = norm) as Hnorm
    by apply normalize_twice.
  destruct (process_customer_row_cases row')
    as (months' & Hpick' & _ & _ & Hcases').
  rewrite Hnorm in Hpick', Hcases'.
  change (Row.installment_period row') with (Py.VInt months) in Hpick'.
  rewrite (pick_allowed_int _ _ Hmem) in Hpick'. injection Hpick' as <-.
  change (dsr_of row' months) with (dsr_of row months) in Hcases'.
  assert (∀ d s, processed_of row' months d s = processed_of row months d s)
    as Hsame.
  { intros d s. unfold processed_of. by rewrite Hnorm. }
  assert (review_suggestions row' months = review_suggestions row months)
    as Hreview.
  { unfold review_suggestions. by rewrite Hnorm. }
  assert (∀ longest, rejected_suggestions row' months longest
                     = rejected_suggestions row months longest) as Hrejected
    by done.
  setoid_rewrite Hsame in Hcases'. rewrite Hreview in Hcases'.
  setoid_rewrite Hrejected in Hcases'.
  destruct Hcases as [[H45 H]|[(H45 & H60 & H)|(H45 & H60 & longest & Hmax & H)]];
    rewrite Hrow in H; injection H as ->; rewrite Hpayload;
    destruct Hcases'
      as [[H45' H']|[(H45' & H60' & H')|(H45' & H60' & longest' & Hmax' & H')]];
    try congruence.
Qed.

Lemma reevaluation_reproduces_witness :
  ∃ processed,
    process_customer_row row_review = Some processed
    ∧ process_customer_row
        (_db_customer_to_payload (columns_of_processed processed))
      = Some processed.
Proof.
  eexists. split; [vm_compute; reflexivity|].
  apply (reevaluation_reproduces row_review).
  - intros s [= <-]. reflexivity.
  - vm_compute. reflexivity.
Defined.

(** ** Scoring, filtering and the manual override *)

Lemma final_display_cases (c : Customer.t) :
  final_display c
  = if Py.str_truthy (Customer.manual_decision c)
    then Customer.manual_decision c
    else Some (_policy_decision_from_dsr (dsr_or_zero (Customer.dsr c))).
Proof.
  destruct (Py.str_truthy (Customer.manual_decision c)) eqn:E.
  - unfold final_display, Py.or_ at 1. by rewrite E.
  - by apply final_display_no_manual.
Qed.

(** X18. Scoring never changes the displayed decision.  After the scoring
    of [import_csv], a record without manual decision is counted by
    [analytics_overview] under the decision it displays; after
    [score_batch] the same holds for every record that has a stored
    [dsr]. *)
Theorem scoring_keeps_display (c : Customer.t) (processed : Processed.t) :
  final_display (import_csv_update c) = final_display c
  ∧ final_display (score_batch_update c processed) = final_display c
  ∧ (Py.str_truthy (Customer.manual_decision c) = false →
     analytics_decision (import_csv_update c) = final_display c)
  ∧ (Py.str_truthy (Customer.manual_decision c) = false →
     is_Some (Customer.dsr c) →
     analytics_decision (score_batch_update c processed) = final_display c)
  ∧ (Py.str_truthy (Customer.manual_decision c) = true →
     analytics_decision (import_csv_update c) = final_display c
     ∧ analytics_decision (score_batch_update c processed) = final_display c).
Proof.
  rewrite !final_display_cases.
  cbn [import_csv_update score_batch_update Customer.dsr
       Customer.manual_decision].
  split; [done|]. split; [done|].
  unfold analytics_decision.
  cbn [import_csv_update score_batch_update Customer.dsr Customer.decision
       Customer.manual_decision Customer.ml_final_decision].
  split_and!.
  - intros Hm. unfold Py.or_ at 1. rewrite Hm.
    unfold Py.or_. by rewrite policy_decision_truthy.
  - intros Hm [dsr Hdsr]. unfold Py.or_ at 1. rewrite Hm, Hdsr.
    unfold Py.or_. rewrite policy_decision_truthy.
    by rewrite policy_decision_dsr_or_zero.
  - intros Hm. unfold Py.or_ at 1 3. by rewrite Hm.
Qed.

(** X19. For a non-empty [decision] parameter, the filter of
    [customer_applications] selects a record exactly when the record
    displays that decision, in each of these states: the record has a
    non-empty manual decision; the record is as the scoring step of
    [import_csv] has just written it; the record has a stored [dsr] and is
    as [score_batch] has just written it. *)
Theorem decision_filter_agrees_with_display (decision : string) (c : Customer.t) :
  decision ≠ "" →
  ((∃ m, Customer.manual_decision c = Some m ∧ m ≠ "") →
   matches_decision_filter decision c = true
   ↔ final_display c = Some decision)
  ∧ (Customer.manual_decision c = None →
     matches_decision_filter decision (import_csv_update c) = true
     ↔ final_display (import_csv_update c) = Some decision)
  ∧ (Customer.manual_decision c = None →
     ∀ processed, is_Some (Customer.dsr c) →
       matches_decision_filter decision (score_batch_update c processed) = true
       ↔ final_display (score_batch_update c processed) = Some decision).
Proof.
  intros Hd. split_and!.
  - intros (m & Hm & Hne). rewrite final_display_cases, Hm.
    cbn [Py.str_truthy]. rewrite (proj2 (String.eqb_neq m "") Hne). cbn [negb].
    unfold matches_decision_filter. rewrite Hm.
    rewrite (bool_decide_false (Some m = None)) by done. cbn [andb orb].
    rewrite !orb_false_r. by rewrite bool_decide_eq_true.
  - intros Hm. rewrite final_display_cases.
    unfold matches_decision_filter.
    cbn [import_csv_update Customer.dsr Customer.decision
         Customer.manual_decision Customer.ml_final_decision].
    rewrite Hm. cbn [Py.str_truthy].
    rewrite (bool_decide_false (None = Some decision)) by done.
    rewrite (bool_decide_true (None = None)) by done.
    rewrite (bool_decide_false (Some _ = None)) by done.
    cbn [andb orb]. rewrite !orb_false_r. by rewrite bool_decide_eq_true.
  - intros Hm processed [dsr Hdsr]. rewrite final_display_cases.
    unfold matches_decision_filter.
    cbn [score_batch_update Customer.dsr Customer.decision
         Customer.manual_decision Customer.ml_final_decision].
    rewrite Hm, Hdsr. cbn [Py.str_truthy].
    rewrite (bool_decide_false (None = Some decision)) by done.
    rewrite (bool_decide_true (None = None)) by done.
    rewrite (bool_decide_false (Some _ = None)) by done.
    cbn [andb orb]. rewrite !orb_false_r.
    by rewrite bool_decide_eq_true, policy_decision_dsr_or_zero.
Qed.

Lemma decision_filter_agrees_with_display_witness :
  matches_decision_filter "Review"
    (import_csv_update {| Customer.dsr := Some 0.5%Q;
                          Customer.decision := Some "Accepted";
                          Customer.ml_final_decision := None;
                          Customer.manual_decision := None |}) = true.
Proof.
  pose proof (decision_filter_agrees_with_display "Review"
                {| Customer.dsr := Some 0.5%Q;
                   Customer.decision := Some "Accepted";
                   Customer.ml_final_decision := None;
                   Customer.manual_decision := None |})
    as H.
  destruct H as (_ & H & _); [discriminate|].
  apply H; reflexivity.
Defined.

(** X20. [set_manual_decision] fails with 404 when there is no record
    and with 400 when the decision is not one of "Accepted", "Review",
    "Rejected", and otherwise succeeds.  After a success the record
    displays the manual decision whatever its [dsr] is, is counted under
    it by [analytics_overview], is selected by the decision filter for
    that decision alone, and keeps its other columns. *)
Theorem manual_decision_takes_effect (c : option Customer.t) (decision : string) :
  (c = None →
   set_manual_decision c decision = inl (HTTPException 404 "Customer not found"))
  ∧ (is_Some c → decision ∉ ["Accepted"; "Review"; "Rejected"] →
     set_manual_decision c decision
     = inl (HTTPException 400 "decision must be Accepted|Review|Rejected"))
  ∧ (∀ c0, c = Some c0 → decision ∈ ["Accepted"; "Review"; "Rejected"] →
     ∃ c',
       set_manual_decision c decision = inr c'
       ∧ final_display c' = Some decision
       ∧ analytics_decision c' = Some decision
       ∧ (∀ d, matches_decision_filter d c' = true ↔ d = decision)
       ∧ Customer.dsr c' = Customer.dsr c0
       ∧ Customer.decision c' = Customer.decision c0
       ∧ Customer.ml_final_decision c' = Customer.ml_final_decision c0)
  ∧ (∀ c', set_manual_decision c decision = inr c' →
     is_Some c ∧ decision ∈ ["Accepted"; "Review"; "Rejected"]).
Proof.
  split_and!.
  - intros ->. done.
  - intros [c0 ->] Hd. unfold set_manual_decision.
    by rewrite bool_decide_false.
  - intros c0 -> Hd. unfold set_manual_decision.
    rewrite bool_decide_true by done. cbn [negb].
    assert (Py.str_truthy (Some decision) = true) as Ht.
    { rewrite !elem_of_cons, elem_of_nil in Hd.
      destruct Hd as [-> | [-> | [-> | []]]]; done. }
    eexists. split; [reflexivity|]. split_and!; try done.
    + rewrite final_display_cases. cbn [Customer.manual_decision].
      by rewrite Ht.
    + unfold analytics_decision, Py.or_ at 1. cbn [Customer.manual_decision].
      by rewrite Ht.
    + intros d. unfold matches_decision_filter.
      cbn [Customer.manual_decision].
      rewrite (bool_decide_false (Some decision = None)) by done.
      cbn [andb orb]. rewrite !orb_false_r, bool_decide_eq_true.
      split; congruence.
  - intros c'. unfold set_manual_decision. destruct c as [c0|]; [|done].
    case_bool_decide as Hd; cbn [negb]; [|done]. intros _. by split.
Qed.

(** X21. The displayed decision is never null and never empty; for a
    record whose manual decision is null or was set through
    [set_manual_decision] it is one of "Accepted", "Review" and
    "Rejected". *)
Theorem display_is_a_decision (c : Customer.t) :
  (∃ d, final_display c = Some d ∧ d ≠ "")
  ∧ (Customer.manual_decision c = None
     ∨ (∃ c0 d, set_manual_decision (Some c0) d = inr c) →
     ∃ d, final_display c = Some d ∧ d ∈ ["Accepted"; "Review"; "Rejected"]).
Proof.
  assert (∀ dsr, _policy_decision_from_dsr dsr ∈ ["Accepted"; "Review"; "Rejected"])
    as Hthree.
  { intros dsr. rewrite !elem_of_cons.
    destruct (decision_is_one_of_three dsr) as [-> | [-> | ->]]; auto. }
  rewrite final_display_cases. split.
  - destruct (Customer.manual_decision c) as [m|] eqn:Hm; cbn [Py.str_truthy].
    + destruct (String.eqb_spec m "") as [->|Hne]; cbn [negb].
      * eexists. split; [done|].
        pose proof (policy_decision_truthy (dsr_or_zero (Customer.dsr c))) as Ht.
        intros Heq. rewrite Heq in Ht. done.
      * by exists m.
    + eexists. split; [done|].
      pose proof (policy_decision_truthy (dsr_or_zero (Customer.dsr c))) as Ht.
      intros Heq. rewrite Heq in Ht. done.
  - intros [Hm|(c0 & d & Hset)].
    + rewrite Hm. cbn [Py.str_truthy]. by eexists.
    + unfold set_manual_decision in Hset.
      case_bool_decide as Hd; cbn [negb] in Hset; [|done].
      injection Hset as <-. cbn [Customer.manual_decision].
      assert (Py.str_truthy (Some d) = true) as ->.
      { rewrite !elem_of_cons, elem_of_nil in Hd.
        destruct Hd as [-> | [-> | [-> | []]]]; done. }
      by exists d.
Qed.


